(** * Draw Circle: a shallow embedding of [main.cpp]

  The program is a single window whose procedure ([MainWindow::HandleMessage])
  keeps an ellipse that follows a mouse drag and paints it through a
  Direct2D render target and brush.  This file embeds

  - the binary32 arithmetic of the mouse handlers ([Float32]),
  - the Win32 and HRESULT conventions the code relies on ([Win32]),
  - the window object, the static [DPIScale] pair and the calls the
    program issues to the host and to the graphics backend ([App]),

  and then states the properties of the resource lifecycle and of the
  drag state machine. *)

From Stdlib Require Import ZArith List Bool Lia.
From Stdlib Require Import Floats.SpecFloat.
Import ListNotations.
Local Open Scope Z_scope.

(** ** IEEE 754 binary32, the C++ type [float] *)

Module Float32.

Definition prec : Z := 24.
Definition emax : Z := 128.

Definition float : Type := spec_float.

(** [static_cast<float>(n)] for an integer [n]: round to nearest even. *)
Definition of_Z (n : Z) : float := binary_normalize prec emax n 0 false.

Definition add : float -> float -> float := SFadd prec emax.
Definition sub : float -> float -> float := SFsub prec emax.
Definition div : float -> float -> float := SFdiv prec emax.

Definition eqb : float -> float -> bool := SFeqb.
Definition ltb : float -> float -> bool := SFltb.
Definition leb : float -> float -> bool := SFleb.

(** The literal [0.0f] and the value-initialised [FLOAT]. *)
Definition zero : float := S754_zero false.

Definition is_nan (f : float) : bool :=
  match f with S754_nan => true | _ => false end.

Definition is_finite (f : float) : bool :=
  match f with S754_zero _ | S754_finite _ _ _ => true | _ => false end.

(** A representable binary32 value: the mantissa is canonical for the
    exponent. *)
Definition valid (f : float) : bool := valid_binary prec emax f.

(** Two finite representable values in order, as compared by [<=]. *)
Definition ordered (a b : float) : bool :=
  valid a && valid b && is_finite a && is_finite b && leb a b.

(** Sign bit as the operations compute it, with NaN carrying none. *)
Definition has_sign (s : bool) (f : float) : bool :=
  match f with
  | S754_zero s' | S754_infinity s' | S754_finite s' _ _ => Bool.eqb s s'
  | S754_nan => false
  end.

(** The value of a finite float as a fraction [n / 2^k]. *)
Definition to_fraction (f : float) : option (Z * Z) :=
  match f with
  | S754_zero _ => Some (0, 1)
  | S754_finite s m e =>
      let n := if s then Z.neg m else Z.pos m in
      Some (if 0 <=? e then (n * 2 ^ e, 1) else (n, 2 ^ (- e)))
  | _ => None
  end.

(** [f] denotes exactly the integer [n]. *)
Definition denotes_Z (f : float) (n : Z) : bool :=
  match to_fraction f with
  | Some (num, den) => num =? n * den
  | None => false
  end.

End Float32.

Import Float32.

(** ** Win32 conventions *)

Module Win32.

(** [HRESULT] is a signed 32-bit code; negative values are failures. *)
Definition HRESULT : Type := Z.
Definition S_OK : HRESULT := 0.
Definition E_OUTOFMEMORY : HRESULT := 0x8007000E - 2 ^ 32.
Definition D2DERR_RECREATE_TARGET : HRESULT := 0x8899000C - 2 ^ 32.

Definition SUCCEEDED (hr : HRESULT) : bool := 0 <=? hr.
Definition FAILED (hr : HRESULT) : bool := hr <? 0.

Definition LRESULT : Type := Z.
Definition DWORD_of (w : Z) : Z := w mod 2 ^ 32.

Definition MK_LBUTTON : Z := 0x0001.

(** The mouse position macros of [windowsx.h]. *)
Definition LOWORD (l : Z) : Z := Z.land l 0xffff.
Definition HIWORD (l : Z) : Z := Z.land (Z.shiftr l 16) 0xffff.
Definition short_of (w : Z) : Z := if w <? 2 ^ 15 then w else w - 2 ^ 16.
Definition GET_X_LPARAM (lp : Z) : Z := short_of (LOWORD lp).
Definition GET_Y_LPARAM (lp : Z) : Z := short_of (HIWORD lp).

(** The messages the window procedure switches on; [WM_other] stands for
    every code that has no case of its own. *)
Inductive UMsg : Type :=
| WM_CREATE | WM_LBUTTONDOWN | WM_LBUTTONUP | WM_MOUSEMOVE | WM_DESTROY
| WM_PAINT | WM_SIZE
| WM_SYSKEYDOWN | WM_SYSCHAR | WM_SYSKEYUP | WM_KEYDOWN | WM_KEYUP | WM_CHAR
| WM_other (code : Z).

End Win32.

Import Win32.

(** ** Direct2D value types *)

Module D2D1.

Record D2D1_POINT_2F : Type := Point2F { x : float; y : float }.

Record D2D1_ELLIPSE : Type :=
  Ellipse { point : D2D1_POINT_2F; radiusX : float; radiusY : float }.

Record D2D1_SIZE_U : Type := SizeU { width : Z; height : Z }.

(** Colours as 0xRRGGBB. *)
Definition ColorF : Type := Z.
Definition Red : ColorF := 0xFF0000.
Definition BlanchedAlmond : ColorF := 0xFFEBCD.

End D2D1.

Import D2D1.

(** ** The program *)

Module App.

(** A COM interface pointer: [None] is [NULL], [Some h] a live object. *)
Definition handle : Type := positive.
Definition ComPtr : Type := option handle.

(** Calls issued to the host windowing system and the graphics backend,
    with the arguments that matter to the lifecycle. *)
Inductive Call : Type :=
| D2D1CreateFactory
| GetDpiForWindow
| GetClientRect
| CreateHwndRenderTarget (factory : handle) (size : D2D1_SIZE_U)
| CreateSolidColorBrush (target : handle) (color : ColorF)
| Release (object : handle)
| BeginPaint
| EndPaint
| BeginDraw (target : handle)
| Clear (target : handle) (color : ColorF)
| FillEllipse (target : handle) (shape : D2D1_ELLIPSE) (brush : ComPtr)
| EndDraw (target : handle)
| ResizeTarget (target : handle) (size : D2D1_SIZE_U)
| InvalidateRect
| SetCapture
| ReleaseCapture
| PostQuitMessage (code : Z)
| OutputDebugString (msg : UMsg) (wParam : Z)
| DefWindowProc (msg : UMsg) (wParam lParam : Z).

(** What the collaborators answer during one dispatch.  Every fallible
    call is made at most once per message, so one field per call is
    exact. *)
Record Backend : Type := {
  factory_hr : HRESULT;
  factory_out : handle;
  window_dpi : Z;
  client_right : Z;
  client_bottom : Z;
  target_hr : HRESULT;
  target_out : handle;
  brush_hr : HRESULT;
  brush_out : handle;
  enddraw_hr : HRESULT;
  defproc_ret : LRESULT
}.

(** Data members of [MainWindow]. *)
Record MainWindow : Type := {
  pFactory : ComPtr;
  pRenderTarget : ComPtr;
  pBrush : ComPtr;
  ellipse : D2D1_ELLIPSE;
  ptMouse : D2D1_POINT_2F
}.

(** Static members of [DPIScale]. *)
Record DPIScale : Type := { scaleX : float; scaleY : float }.

(** The process: the window object, the statics, whether the host has the
    pointer captured for this window, and the calls issued so far. *)
Record Process : Type := {
  win : MainWindow;
  dpi : DPIScale;
  captured : bool;
  trace : list Call
}.

Definition set_win (f : MainWindow -> MainWindow) (p : Process) : Process :=
  {| win := f (win p); dpi := dpi p; captured := captured p; trace := trace p |}.

Definition set_dpi (d : DPIScale) (p : Process) : Process :=
  {| win := win p; dpi := d; captured := captured p; trace := trace p |}.

Definition set_captured (b : bool) (p : Process) : Process :=
  {| win := win p; dpi := dpi p; captured := b; trace := trace p |}.

Definition log (c : Call) (p : Process) : Process :=
  {| win := win p; dpi := dpi p; captured := captured p;
     trace := trace p ++ [c] |}.

Definition set_pFactory (v : ComPtr) (w : MainWindow) : MainWindow :=
  {| pFactory := v; pRenderTarget := pRenderTarget w; pBrush := pBrush w;
     ellipse := ellipse w; ptMouse := ptMouse w |}.

Definition set_pRenderTarget (v : ComPtr) (w : MainWindow) : MainWindow :=
  {| pFactory := pFactory w; pRenderTarget := v; pBrush := pBrush w;
     ellipse := ellipse w; ptMouse := ptMouse w |}.

Definition set_pBrush (v : ComPtr) (w : MainWindow) : MainWindow :=
  {| pFactory := pFactory w; pRenderTarget := pRenderTarget w; pBrush := v;
     ellipse := ellipse w; ptMouse := ptMouse w |}.

Definition set_ellipse (v : D2D1_ELLIPSE) (w : MainWindow) : MainWindow :=
  {| pFactory := pFactory w; pRenderTarget := pRenderTarget w;
     pBrush := pBrush w; ellipse := v; ptMouse := ptMouse w |}.

Definition set_ptMouse (v : D2D1_POINT_2F) (w : MainWindow) : MainWindow :=
  {| pFactory := pFactory w; pRenderTarget := pRenderTarget w;
     pBrush := pBrush w; ellipse := ellipse w; ptMouse := v |}.

(** *** Handlers run in a state monad that can stop on a null dereference *)

Definition M (A : Type) : Type := Process -> option (A * Process).

Definition ret {A} (a : A) : M A := fun p => Some (a, p).

Definition bind {A B} (c : M A) (k : A -> M B) : M B :=
  fun p => match c p with
           | Some (a, p') => k a p'
           | None => None
           end.

Notation "x <- c ;; k" := (bind c (fun x => k))
  (at level 61, c at next level, right associativity).
Notation "c ;; k" := (bind c (fun _ => k))
  (at level 61, right associativity).

Definition get : M Process := fun p => Some (p, p).
Definition modify (f : Process -> Process) : M unit := fun p => Some (tt, f p).
Definition call (c : Call) : M unit := modify (log c).

(** [ptr->method(...)]: undefined on [NULL]. *)
Definition deref (ptr : ComPtr) : M handle :=
  fun p => match ptr with Some h => Some (h, p) | None => None end.

(** A COM creation function stores an object on success and [NULL] on
    failure. *)
Definition com_out (hr : HRESULT) (h : handle) : ComPtr :=
  if SUCCEEDED hr then Some h else None.

(** [SafeRelease(&member)] *)
Definition SafeRelease (member : MainWindow -> ComPtr)
    (set_member : ComPtr -> MainWindow -> MainWindow) : M unit :=
  p <- get ;;
  match member (win p) with
  | Some h =>
      call (Release h) ;;
      modify (set_win (set_member None))
  | None => ret tt
  end.

(** [DPIScale::Initialize] *)
Definition Initialize (env : Backend) : M unit :=
  call GetDpiForWindow ;;
  let dpiY := of_Z (window_dpi env) in
  let dpiX := dpiY in
  modify (set_dpi {| scaleX := div dpiX (of_Z 96);
                     scaleY := div dpiY (of_Z 96) |}).

(** [DPIScale::PixelsToDips] *)
Definition PixelsToDips (d : DPIScale) (px py : Z) : D2D1_POINT_2F :=
  Point2F (div (of_Z px) (scaleX d)) (div (of_Z py) (scaleY d)).

(** The constructor [MainWindow()] and the initialisers of the statics. *)
Definition MainWindow_new : MainWindow :=
  {| pFactory := None; pRenderTarget := None; pBrush := None;
     ellipse := Ellipse (Point2F zero zero) (of_Z 0) (of_Z 0);
     ptMouse := Point2F zero zero |}.

Definition start : Process :=
  {| win := MainWindow_new;
     dpi := {| scaleX := of_Z 1; scaleY := of_Z 1 |};
     captured := false;
     trace := [] |}.

Definition CalculateLayout : M unit := ret tt.

(** [MainWindow::CreateGraphicsResources] *)
Definition CreateGraphicsResources (env : Backend) : M HRESULT :=
  p <- get ;;
  match pRenderTarget (win p) with
  | None =>
      call GetClientRect ;;
      let size := SizeU (client_right env) (client_bottom env) in
      factory <- deref (pFactory (win p)) ;;
      call (CreateHwndRenderTarget factory size) ;;
      let hr := target_hr env in
      modify (set_win (set_pRenderTarget (com_out hr (target_out env)))) ;;
      if SUCCEEDED hr then
        p <- get ;;
        target <- deref (pRenderTarget (win p)) ;;
        call (CreateSolidColorBrush target Red) ;;
        let hr := brush_hr env in
        modify (set_win (set_pBrush (com_out hr (brush_out env)))) ;;
        (if SUCCEEDED hr then CalculateLayout else ret tt) ;;
        ret hr
      else ret hr
  | Some _ => ret S_OK
  end.

(** [MainWindow::DiscardGraphicsResources] *)
Definition DiscardGraphicsResources : M unit :=
  SafeRelease pRenderTarget set_pRenderTarget ;;
  SafeRelease pBrush set_pBrush.

(** [MainWindow::OnPaint] *)
Definition OnPaint (env : Backend) : M unit :=
  hr <- CreateGraphicsResources env ;;
  if SUCCEEDED hr then
    call BeginPaint ;;
    p <- get ;;
    target <- deref (pRenderTarget (win p)) ;;
    call (BeginDraw target) ;;
    call (Clear target BlanchedAlmond) ;;
    call (FillEllipse target (ellipse (win p)) (pBrush (win p))) ;;
    call (EndDraw target) ;;
    let hr := enddraw_hr env in
    (if FAILED hr || (hr =? D2DERR_RECREATE_TARGET)
     then DiscardGraphicsResources else ret tt) ;;
    call EndPaint
  else ret tt.

(** [MainWindow::Resize] *)
Definition Resize (env : Backend) : M unit :=
  p <- get ;;
  match pRenderTarget (win p) with
  | Some target =>
      call GetClientRect ;;
      let size := SizeU (client_right env) (client_bottom env) in
      call (ResizeTarget target size) ;;
      CalculateLayout ;;
      call InvalidateRect
  | None => ret tt
  end.

(** [MainWindow::OnLButtonDown] *)
Definition OnLButtonDown (pixelX pixelY flags : Z) : M unit :=
  call SetCapture ;;
  modify (set_captured true) ;;
  p <- get ;;
  let pt := PixelsToDips (dpi p) pixelX pixelY in
  modify (set_win (set_ptMouse pt)) ;;
  modify (set_win (fun w => set_ellipse
    (Ellipse pt (radiusX (ellipse w)) (radiusY (ellipse w))) w)) ;;
  modify (set_win (fun w => set_ellipse
    (Ellipse (point (ellipse w)) (of_Z 1) (of_Z 1)) w)) ;;
  call InvalidateRect.

(** [MainWindow::OnMouseMove] *)
Definition OnMouseMove (pixelX pixelY flags : Z) : M unit :=
  if negb (Z.land flags MK_LBUTTON =? 0) then
    p <- get ;;
    let dips := PixelsToDips (dpi p) pixelX pixelY in
    let anchor := ptMouse (win p) in
    let width := div (sub (x dips) (x anchor)) (of_Z 2) in
    let height := div (sub (y dips) (y anchor)) (of_Z 2) in
    let x1 := add (x anchor) width in
    let y1 := add (y anchor) height in
    modify (set_win (set_ellipse (Ellipse (Point2F x1 y1) width height))) ;;
    call InvalidateRect
  else ret tt.

(** [MainWindow::OnLButtonUp] *)
Definition OnLButtonUp : M unit :=
  call ReleaseCapture ;;
  modify (set_captured false).

(** [MainWindow::HandleMessage] *)
Definition HandleMessage (uMsg : UMsg) (wParam lParam : Z) (env : Backend)
    : M LRESULT :=
  let default :=
    call (DefWindowProc uMsg wParam lParam) ;; ret (defproc_ret env) in
  match uMsg with
  | WM_CREATE =>
      call D2D1CreateFactory ;;
      modify (set_win (set_pFactory
        (com_out (factory_hr env) (factory_out env)))) ;;
      if FAILED (factory_hr env) then ret (-1)
      else Initialize env ;; ret 0
  | WM_LBUTTONDOWN =>
      OnLButtonDown (GET_X_LPARAM lParam) (GET_Y_LPARAM lParam)
        (DWORD_of wParam) ;;
      ret 0
  | WM_LBUTTONUP => OnLButtonUp ;; ret 0
  | WM_MOUSEMOVE =>
      OnMouseMove (GET_X_LPARAM lParam) (GET_Y_LPARAM lParam)
        (DWORD_of wParam) ;;
      ret 0
  | WM_DESTROY =>
      DiscardGraphicsResources ;;
      SafeRelease pFactory set_pFactory ;;
      call (PostQuitMessage 0) ;;
      ret 0
  | WM_PAINT => OnPaint env ;; ret 0
  | WM_SIZE => Resize env ;; ret 0
  | WM_SYSKEYDOWN | WM_SYSCHAR | WM_SYSKEYUP
  | WM_KEYDOWN | WM_KEYUP | WM_CHAR =>
      call (OutputDebugString uMsg wParam) ;;
      default
  | WM_other _ => default
  end.

(** *** The message loop *)

Record Event : Type := {
  uMsg : UMsg;
  wParam : Z;
  lParam : Z;
  answers : Backend
}.

Definition dispatch (e : Event) (p : Process) : option Process :=
  match HandleMessage (uMsg e) (wParam e) (lParam e) (answers e) p with
  | Some (_, p') => Some p'
  | None => None
  end.

Fixpoint run (events : list Event) (p : Process) : option Process :=
  match events with
  | [] => Some p
  | e :: rest =>
      match dispatch e p with
      | Some p' => run rest p'
      | None => None
      end
  end.

Definition reachable (p : Process) : Prop :=
  exists events, run events start = Some p.

End App.

Import App.

(** ** Concrete collaborators used in examples *)

(** A backend in which every call succeeds, at 96 DPI. *)
Definition backend_ok : Backend :=
  {| factory_hr := S_OK; factory_out := 1%positive;
     window_dpi := 96;
     client_right := 640; client_bottom := 480;
     target_hr := S_OK; target_out := 2%positive;
     brush_hr := S_OK; brush_out := 3%positive;
     enddraw_hr := S_OK;
     defproc_ret := 0 |}.

(** The render target is created, the brush is not. *)
Definition backend_brush_fails : Backend :=
  {| factory_hr := S_OK; factory_out := 1%positive;
     window_dpi := 96;
     client_right := 640; client_bottom := 480;
     target_hr := S_OK; target_out := 2%positive;
     brush_hr := E_OUTOFMEMORY; brush_out := 3%positive;
     enddraw_hr := S_OK;
     defproc_ret := 0 |}.

(** Resources are created, the frame ends with a lost device. *)
Definition backend_device_lost : Backend :=
  {| factory_hr := S_OK; factory_out := 1%positive;
     window_dpi := 96;
     client_right := 640; client_bottom := 480;
     target_hr := S_OK; target_out := 2%positive;
     brush_hr := S_OK; brush_out := 3%positive;
     enddraw_hr := D2DERR_RECREATE_TARGET;
     defproc_ret := 0 |}.

Definition MAKELPARAM (lo hi : Z) : Z :=
  Z.lor (Z.land lo 0xffff) (Z.shiftl (Z.land hi 0xffff) 16).

Definition message (m : UMsg) (wp lp : Z) (env : Backend) : Event :=
  {| uMsg := m; wParam := wp; lParam := lp; answers := env |}.

Definition unit_scale : DPIScale := {| scaleX := of_Z 1; scaleY := of_Z 1 |}.

(** The process after a list of messages, for examples that do not stop. *)
Definition after (events : list Event) : Process :=
  match run events start with
  | Some p => p
  | None => start
  end.

(** A window created at 96 DPI in which a drag from pixel (10,10) has
    reached pixel (50,30). *)
Definition drag_10_10_to_50_30 : list Event :=
  [ message WM_CREATE 0 0 backend_ok;
    message WM_LBUTTONDOWN MK_LBUTTON (MAKELPARAM 10 10) backend_ok;
    message WM_MOUSEMOVE MK_LBUTTON (MAKELPARAM 50 30) backend_ok ].

Definition mid_drag : Process := after drag_10_10_to_50_30.

(** A window created at 96 DPI just after a press at pixel (10,10). *)
Definition pressed : Process :=
  after [ message WM_CREATE 0 0 backend_ok;
          message WM_LBUTTONDOWN MK_LBUTTON (MAKELPARAM 10 10) backend_ok ].

(** A window created at 96 DPI that has not painted yet. *)
Definition created : Process :=
  after [ message WM_CREATE 0 0 backend_ok ].

(** The created window once its resources exist. *)
Definition ready : Process :=
  match CreateGraphicsResources backend_ok created with
  | Some (_, p) => p
  | None => created
  end.

(** The three messages after which a paint draws without a brush. *)
Definition paint_after_brush_failure : list Event :=
  [ message WM_CREATE 0 0 backend_ok;
    message WM_PAINT 0 0 backend_brush_fails;
    message WM_PAINT 0 0 backend_ok ].

(** A press followed by the destruction of the window. *)
Definition destroy_while_dragging : list Event :=
  [ message WM_CREATE 0 0 backend_ok;
    message WM_LBUTTONDOWN MK_LBUTTON (MAKELPARAM 10 10) backend_ok;
    message WM_DESTROY 0 0 backend_ok ].

(** A window created at 96 DPI and painted once. *)
Definition create_and_paint : list Event :=
  [ message WM_CREATE 0 0 backend_ok;
    message WM_PAINT 0 0 backend_ok ].

Definition painted : Process := after create_and_paint.

(** Creation of the render target is refused. *)
Definition backend_target_fails : Backend :=
  {| factory_hr := S_OK; factory_out := 1%positive;
     window_dpi := 96;
     client_right := 640; client_bottom := 480;
     target_hr := E_OUTOFMEMORY; target_out := 2%positive;
     brush_hr := S_OK; brush_out := 3%positive;
     enddraw_hr := S_OK;
     defproc_ret := 0 |}.

(** Every call succeeds and the backend hands out fresh objects. *)
Definition backend_ok_again : Backend :=
  {| factory_hr := S_OK; factory_out := 1%positive;
     window_dpi := 96;
     client_right := 800; client_bottom := 600;
     target_hr := S_OK; target_out := 4%positive;
     brush_hr := S_OK; brush_out := 5%positive;
     enddraw_hr := S_OK;
     defproc_ret := 0 |}.

(** Messages of a session in which the brush fails once. *)
Definition busy_session : list Event :=
  [ message WM_LBUTTONDOWN MK_LBUTTON (MAKELPARAM 10 10) backend_ok;
    message WM_PAINT 0 0 backend_brush_fails;
    message WM_PAINT 0 0 backend_device_lost;
    message WM_MOUSEMOVE MK_LBUTTON (MAKELPARAM 90 40) backend_ok;
    message WM_SIZE 0 0 backend_ok_again;
    message WM_PAINT 0 0 backend_target_fails;
    message WM_KEYDOWN 0x41 0 backend_ok;
    message WM_LBUTTONUP 0 (MAKELPARAM 90 40) backend_ok;
    message WM_PAINT 0 0 backend_ok_again ].

(** ** Properties stated on ellipses and resources *)

Definition radii_nonneg (e : D2D1_ELLIPSE) : Prop :=
  leb zero (radiusX e) = true /\ leb zero (radiusY e) = true.

(** The radius has the sign of the delta it was computed from. *)
Definition follows_sign (delta radius : float) : Prop :=
  (leb zero delta = true -> leb zero radius = true) /\
  (leb delta zero = true -> leb radius zero = true).

(** The radius has the sign of the drag direction on its axis. *)
Definition follows_order (anchor current radius : float) : Prop :=
  (ordered anchor current = true -> leb zero radius = true) /\
  (ordered current anchor = true -> leb radius zero = true).

(** Both device-dependent resources exist, or neither does. *)
Definition both_or_neither (w : MainWindow) : Prop :=
  (pRenderTarget w <> None /\ pBrush w <> None) \/
  (pRenderTarget w = None /\ pBrush w = None).

(** Every [FillEllipse] in a trace was given a brush. *)
Definition draws_with_brush (t : list Call) : Prop :=
  forall target shape brush, In (FillEllipse target shape brush) t ->
    brush <> None.

Definition is_ReleaseCapture (c : Call) : bool :=
  match c with ReleaseCapture => true | _ => false end.

(** The [Release] calls that discarding the resources of [w] issues. *)
Definition release_calls (w : MainWindow) : list Call :=
  match pRenderTarget w with Some h => [Release h] | None => [] end ++
  match pBrush w with Some h => [Release h] | None => [] end.

(** The window with both device-dependent resources absent. *)
Definition discarded (p : Process) : Process :=
  {| win := set_pBrush None (set_pRenderTarget None (win p));
     dpi := dpi p;
     captured := captured p;
     trace := trace p ++ release_calls (win p) |}.

(** The calls of one frame, from [BeginPaint] to [EndDraw]. *)
Definition frame_calls (target : handle) (shape : D2D1_ELLIPSE)
    (brush : ComPtr) : list Call :=
  [ BeginPaint; BeginDraw target; Clear target BlanchedAlmond;
    FillEllipse target shape brush; EndDraw target ].

(** Pointer capture after a message, as the handlers set it. *)
Definition capture_after (m : UMsg) (before : bool) : bool :=
  match m with
  | WM_LBUTTONDOWN => true
  | WM_LBUTTONUP => false
  | _ => before
  end.

(** The scale pair [DPIScale::Initialize] stores for a window DPI. *)
Definition scale_of_dpi (n : Z) : DPIScale :=
  {| scaleX := div (of_Z n) (of_Z 96); scaleY := div (of_Z n) (of_Z 96) |}.

(** The calls that create both resources. *)
Definition creation_calls (factory : handle) (env : Backend) : list Call :=
  [ GetClientRect;
    CreateHwndRenderTarget factory
      (SizeU (client_right env) (client_bottom env));
    CreateSolidColorBrush (target_out env) Red ].

(** ** Vocabulary for the properties of the handlers *)



(** The four render-target calls of a frame. *)
Definition is_frame_call (c : Call) : bool :=
  match c with
  | BeginDraw _ | Clear _ _ | FillEllipse _ _ _ | EndDraw _ => true
  | _ => false
  end.

Definition is_creation_call (c : Call) : bool :=
  match c with
  | CreateHwndRenderTarget _ _ | CreateSolidColorBrush _ _ => true
  | _ => false
  end.

Definition is_Release (c : Call) : bool :=
  match c with Release _ => true | _ => false end.

Definition is_InvalidateRect (c : Call) : bool :=
  match c with InvalidateRect => true | _ => false end.

Definition is_DefWindowProc (c : Call) : bool :=
  match c with DefWindowProc _ _ _ => true | _ => false end.

Definition count (f : Call -> bool) (calls : list Call) : nat :=
  length (filter f calls).

(** The messages that have a case returning from the [switch]. *)
Definition handled (m : UMsg) : bool :=
  match m with
  | WM_CREATE | WM_LBUTTONDOWN | WM_LBUTTONUP | WM_MOUSEMOVE
  | WM_DESTROY | WM_PAINT | WM_SIZE => true
  | _ => false
  end.

(** The messages whose case writes a line to the debugger. *)
Definition logged (m : UMsg) : bool :=
  match m with
  | WM_SYSKEYDOWN | WM_SYSCHAR | WM_SYSKEYUP
  | WM_KEYDOWN | WM_KEYUP | WM_CHAR => true
  | _ => false
  end.

(** Messages that neither create nor destroy the window. *)
Definition keeps_factory (e : Event) : bool :=
  match uMsg e with
  | WM_CREATE | WM_DESTROY => false
  | _ => true
  end.

(** The button test of [OnMouseMove] on the word the procedure passes. *)
Definition button_held (wp : Z) : bool :=
  negb (Z.land (DWORD_of wp) MK_LBUTTON =? 0).

(** Whether a message asks the host for a repaint. *)
Definition requests_repaint (m : UMsg) (wp : Z) (w : MainWindow) : bool :=
  match m with
  | WM_LBUTTONDOWN => true
  | WM_MOUSEMOVE => button_held wp
  | WM_SIZE => match pRenderTarget w with Some _ => true | None => false end
  | _ => false
  end.

(** The [Release] of the factory at teardown. *)
Definition factory_release (w : MainWindow) : list Call :=
  match pFactory w with Some h => [Release h] | None => [] end.

(** The conversion of a pixel coordinate at scale 1.0 is exact. *)
Definition exact_at_unit_scale (n : Z) : bool :=
  denotes_Z (div (of_Z n) (of_Z 1)) n.

(** A positive finite binary32 value. *)
Definition positive_finite (f : float) : bool :=
  match f with S754_finite false _ _ => true | _ => false end.

(** The brush is never held without the render target. *)
Definition brush_needs_target (p : Process) : Prop :=
  pBrush (win p) = None \/ pRenderTarget (win p) <> None.

(** The DPI the host reports is an unsigned number. *)
Definition reports_unsigned_dpi (e : Event) : bool :=
  0 <=? window_dpi (answers e).

(** A zero or a normal number: a mantissa of 24 digits at an exponent in
    range. *)
Definition normal (f : float) : bool :=
  match f with
  | S754_zero _ => true
  | S754_finite _ m e =>
      (Z.pos (digits2_pos m) =? 24) && (-149 <=? e) && (e <=? 104)
  | _ => false
  end.

(** The value of a finite number times 2^149, an integer for every
    exponent a binary32 number can have. *)
Definition scaled (f : float) : Z :=
  match f with
  | S754_finite s m e => cond_Zopp s (Z.pos m) * 2 ^ (e + 149)
  | _ => 0
  end.

(** [f] is exactly [q / 2]. *)
Definition denotes_half (f : float) (q : Z) : bool :=
  match to_fraction f with
  | Some (num, den) => 2 * num =? q * den
  | None => false
  end.

(** ** Proof support *)

Ltac m_unfold :=
  cbv beta iota delta
    [bind ret get modify call deref SafeRelease CalculateLayout
     log set_win set_dpi set_captured
     set_pFactory set_pRenderTarget set_pBrush set_ellipse set_ptMouse
     win dpi captured trace
     pFactory pRenderTarget pBrush ellipse ptMouse
     point radiusX radiusY x y scaleX scaleY].

Ltac m_unfold_in H :=
  cbv beta iota delta
    [bind ret get modify call deref SafeRelease CalculateLayout
     log set_win set_dpi set_captured
     set_pFactory set_pRenderTarget set_pBrush set_ellipse set_ptMouse
     win dpi captured trace
     pFactory pRenderTarget pBrush ellipse ptMouse
     point radiusX radiusY x y scaleX scaleY] in H.

(** Split a handler's equation along the tests it made, innermost first. *)
Ltac handler_cases H :=
  repeat (m_unfold_in H;
          match type of H with
          | context [match ?c with _ => _ end] =>
              lazymatch c with
              | context [match _ with _ => _ end] => fail
              | _ => destruct c eqn:?
              end
          end);
  m_unfold_in H;
  try discriminate H.

Ltac inv_some H := injection H as <- <-.

Ltac unfold_handlers H :=
  unfold HandleMessage, OnPaint, Resize, OnLButtonDown, OnLButtonUp,
    OnMouseMove, Initialize, DiscardGraphicsResources,
    CreateGraphicsResources, com_out in H.

Ltac trace_suffix :=
  cbn [trace];
  first [ exists []; split; [symmetry; apply app_nil_r | reflexivity]
        | rewrite <- ?app_assoc; eexists; split; reflexivity ].

Ltac absurd_case :=
  match goal with
  | H : SUCCEEDED S_OK = false |- _ => discriminate H
  | H : false = true |- _ => discriminate H
  | H : true = false |- _ => discriminate H
  end.

Ltac absurd_hr :=
  match goal with
  | H1 : FAILED ?h = true, H2 : SUCCEEDED ?h = true |- _ =>
      exfalso; apply Z.ltb_lt in H1; apply Z.leb_le in H2; lia
  end.

Ltac calls_appended :=
  cbn [trace]; rewrite <- ?app_assoc;
  eexists; split; [reflexivity | ].

(** ** Signs in binary32 arithmetic

    Rounding never changes the sign it is given and never produces a NaN,
    so the sign of a quotient is decided by the operands alone. *)

Module Float32Facts.

Section Rounding.

Variables prec emax : Z.

Lemma iter_pos_preserves {A : Type} (P : A -> Prop) (f : A -> A) :
  (forall a, P a -> P (f a)) ->
  forall (n : positive) (a : A), P a -> P (iter_pos f n a).
Proof.
  intros Hf n. induction n as [n IH | n IH | ]; intros a Ha; simpl; auto.
Qed.

Lemma shr_1_nonneg (mrs : shr_record) :
  0 <= shr_m mrs -> 0 <= shr_m (shr_1 mrs).
Proof.
  destruct mrs as [m r s]. simpl.
  destruct m as [ | [q | q | ] | [q | q | ] ]; simpl; lia.
Qed.

Lemma shr_nonneg (mrs : shr_record) (e n : Z) :
  0 <= shr_m mrs -> 0 <= shr_m (fst (shr mrs e n)).
Proof.
  intros H. destruct n as [ | n | n ]; simpl; trivial.
  apply (iter_pos_preserves (fun r => 0 <= shr_m r)); trivial.
  exact shr_1_nonneg.
Qed.

Lemma shr_fexp_nonneg (m e : Z) (l : location) :
  0 <= m -> 0 <= shr_m (fst (shr_fexp prec emax m e l)).
Proof.
  intros H. unfold shr_fexp. apply shr_nonneg.
  destruct l as [ | [ | | ] ]; simpl; exact H.
Qed.

Lemma round_nearest_even_nonneg (m : Z) (l : location) :
  0 <= m -> 0 <= round_nearest_even m l.
Proof.
  intros H. destruct l as [ | [ | | ] ]; simpl; try lia.
  destruct (Z.even m); lia.
Qed.

Lemma binary_round_aux_sign (sx : bool) (mx ex : Z) (lx : location) :
  0 <= mx -> has_sign sx (binary_round_aux prec emax sx mx ex lx) = true.
Proof.
  intros H. unfold binary_round_aux.
  pose proof (shr_fexp_nonneg mx ex lx H) as H1.
  destruct (shr_fexp prec emax mx ex lx) as [mrs' e'].
  simpl in H1.
  pose proof (shr_fexp_nonneg
    (round_nearest_even (shr_m mrs') (loc_of_shr_record mrs')) e' loc_Exact
    (round_nearest_even_nonneg _ _ H1)) as H2.
  destruct (shr_fexp prec emax _ e' loc_Exact) as [mrs'' e''].
  simpl in H2.
  destruct (shr_m mrs'') as [ | m | m ].
  - simpl. apply Bool.eqb_reflx.
  - destruct (e'' <=? emax - prec); simpl; apply Bool.eqb_reflx.
  - lia.
Qed.

Lemma binary_round_sign (sx : bool) (mx : positive) (ex : Z) :
  has_sign sx (binary_round prec emax sx mx ex) = true.
Proof.
  unfold binary_round.
  destruct (shl_align mx ex _) as [mz ez].
  apply binary_round_aux_sign. lia.
Qed.

Lemma has_sign_not_nan (s : bool) (f : spec_float) :
  has_sign s f = true -> is_nan f = false.
Proof. destruct f; simpl; congruence. Qed.

Lemma binary_normalize_not_nan (m e : Z) (szero : bool) :
  is_nan (binary_normalize prec emax m e szero) = false.
Proof.
  destruct m as [ | m | m ]; simpl; trivial;
    eapply has_sign_not_nan; apply binary_round_sign.
Qed.

Lemma SFdiv_core_binary_nonneg (mx my : positive) (ex ey : Z) :
  0 <= fst (fst (SFdiv_core_binary prec emax (Z.pos mx) ex (Z.pos my) ey)).
Proof.
  unfold SFdiv_core_binary.
  set (s := _ - _ - _).
  set (m' := match s with Z0 => Z.pos mx | Z.pos _ => Z.shiftl (Z.pos mx) s
                        | Z.neg _ => 0 end).
  assert (Hm : 0 <= m').
  { subst m'. destruct s; try lia. apply Z.shiftl_nonneg. lia. }
  pose proof (Z.div_pos m' (Z.pos my) Hm ltac:(lia)) as Hq.
  unfold Z.div in Hq.
  destruct (Z.div_eucl m' (Z.pos my)) as [q r]. exact Hq.
Qed.

(** Dividing by a positive finite number keeps the sign of the dividend. *)
Lemma SFdiv_positive_sign (s : bool) (f : spec_float) (m : positive) (e : Z) :
  has_sign s f = true ->
  has_sign s (SFdiv prec emax f (S754_finite false m e)) = true.
Proof.
  destruct f as [sf | sf | | sf mf ef]; simpl; intros H; try discriminate.
  - rewrite Bool.xorb_false_r. exact H.
  - rewrite Bool.xorb_false_r. exact H.
  - pose proof (SFdiv_core_binary_nonneg mf m ef e) as Hq.
    destruct (SFdiv_core_binary prec emax (Z.pos mf) ef (Z.pos m) e)
      as [[mz ez] lz].
    simpl in Hq. rewrite Bool.xorb_false_r.
    apply Bool.eqb_prop in H. subst sf.
    apply binary_round_aux_sign. exact Hq.
Qed.

Lemma SFdiv_positive_not_nan (f : spec_float) (m : positive) (e : Z) :
  is_nan f = false ->
  is_nan (SFdiv prec emax f (S754_finite false m e)) = false.
Proof.
  intros H.
  assert (Hs : exists s, has_sign s f = true).
  { destruct f as [s | s | | s mf ef]; try discriminate;
      exists s; simpl; apply Bool.eqb_reflx. }
  destruct Hs as [s Hs].
  eapply has_sign_not_nan. apply SFdiv_positive_sign. exact Hs.
Qed.

End Rounding.

Lemma SFcompare_refl (f : spec_float) :
  is_nan f = false -> SFcompare f f = Some Eq.
Proof.
  destruct f as [s | s | | s m e]; simpl; intros H; try discriminate; trivial.
  - destruct s; reflexivity.
  - rewrite Z.compare_refl, Pos.compare_cont_refl. destruct s; reflexivity.
Qed.

Lemma eqb_refl (f : float) : is_nan f = false -> eqb f f = true.
Proof. intros H. unfold eqb, SFeqb. rewrite SFcompare_refl; trivial. Qed.

(** A float with its sign bit clear is not below zero. *)
Lemma leb_zero_of_sign (f : float) : has_sign false f = true -> leb zero f = true.
Proof.
  destruct f as [s | s | | s m e]; simpl; intros H; try discriminate; trivial;
    destruct s; try discriminate; reflexivity.
Qed.

Lemma of_Z_not_nan (n : Z) : is_nan (of_Z n) = false.
Proof. apply binary_normalize_not_nan. Qed.

Lemma of_Z_2 : of_Z 2 = S754_finite false 8388608 (-22).
Proof. reflexivity. Qed.

Lemma of_Z_96 : of_Z 96 = S754_finite false 12582912 (-17).
Proof. reflexivity. Qed.

(** Halving keeps a float that is not below zero not below zero. *)
Lemma half_nonneg (f : float) :
  leb zero f = true -> leb zero (div f (of_Z 2)) = true.
Proof.
  intros H. rewrite of_Z_2. unfold div.
  destruct f as [s | s | | s m e]; try discriminate.
  - reflexivity.
  - destruct s; [discriminate | reflexivity].
  - destruct s; [discriminate | ].
    apply leb_zero_of_sign. apply SFdiv_positive_sign. reflexivity.
Qed.

Lemma leb_of_sign_zero (f : float) : has_sign true f = true -> leb f zero = true.
Proof.
  destruct f as [s | s | | s m e]; simpl; intros H; try discriminate; trivial;
    destruct s; try discriminate; reflexivity.
Qed.

(** Halving keeps a float that is not above zero not above zero. *)
Lemma half_nonpos (f : float) :
  leb f zero = true -> leb (div f (of_Z 2)) zero = true.
Proof.
  intros H. rewrite of_Z_2. unfold div.
  destruct f as [s | s | | s m e]; try discriminate.
  - reflexivity.
  - destruct s; [reflexivity | discriminate].
  - destruct s; [ | discriminate].
    apply leb_of_sign_zero. apply SFdiv_positive_sign. reflexivity.
Qed.

(** A scale factor computed by [DPIScale::Initialize] is never a NaN. *)
Lemma scale_not_nan (d : Z) : is_nan (div (of_Z d) (of_Z 96)) = false.
Proof.
  rewrite of_Z_96. apply SFdiv_positive_not_nan. apply of_Z_not_nan.
Qed.


(** *** Order and subtraction *)

Lemma digits2_pos_bounds (m : positive) :
  2 ^ (Z.pos (digits2_pos m) - 1) <= Z.pos m < 2 ^ Z.pos (digits2_pos m).
Proof.
  induction m as [m IH | m IH | ]; cbn [digits2_pos].
  - rewrite Pos2Z.inj_succ.
    replace (Z.succ (Z.pos (digits2_pos m)) - 1)
      with (Z.succ (Z.pos (digits2_pos m) - 1)) by lia.
    rewrite !Z.pow_succ_r by lia. lia.
  - rewrite Pos2Z.inj_succ.
    replace (Z.succ (Z.pos (digits2_pos m)) - 1)
      with (Z.succ (Z.pos (digits2_pos m) - 1)) by lia.
    rewrite !Z.pow_succ_r by lia. lia.
  - simpl. lia.
Qed.

Lemma shl_align_value (m : positive) (e e' : Z) :
  e' <= e -> Z.pos (fst (shl_align m e e')) = Z.pos m * 2 ^ (e - e').
Proof.
  intros H. unfold shl_align.
  destruct (e' - e) as [ | d | d] eqn:Hd; cbn [fst].
  - replace (e - e') with 0 by lia. lia.
  - lia.
  - replace (e - e') with (Z.pos d) by lia.
    change (Pos.iter xO m d) with (shift (Z.pos d) m).
    rewrite shift_equiv by lia.
    apply Z.shiftl_mul_pow2. lia.
Qed.

(** What validity says about a binary32 mantissa. *)
Lemma canonical_bounds (m : positive) (e : Z) :
  canonical_mantissa prec emax m e = true ->
  Z.pos m < 2 ^ 24 /\ -149 <= e /\ (-149 < e -> 2 ^ 23 <= Z.pos m).
Proof.
  unfold canonical_mantissa, fexp, emin, prec, emax. intros H.
  apply Z.eqb_eq in H.
  pose proof (digits2_pos_bounds m) as [Hlo Hhi].
  set (dg := Z.pos (digits2_pos m)) in *.
  assert (Hdg : dg <= 24) by lia.
  split; [ | split]; [ | lia | ].
  - apply Z.lt_le_trans with (2 ^ dg); [exact Hhi | ].
    apply Z.pow_le_mono_r; lia.
  - intros He. assert (dg = 24) by lia.
    replace 23 with (dg - 1) by lia. exact Hlo.
Qed.

Lemma valid_finite_bounds (s : bool) (m : positive) (e : Z) :
  valid (S754_finite s m e) = true ->
  Z.pos m < 2 ^ 24 /\ -149 <= e /\ (-149 < e -> 2 ^ 23 <= Z.pos m).
Proof.
  unfold valid, valid_binary, bounded. intros H.
  apply Bool.andb_true_iff in H. apply canonical_bounds. tauto.
Qed.

(** A normal mantissa scaled to a smaller exponent exceeds every mantissa
    at that exponent. *)
Lemma scaled_mantissa_dominates (big small : positive) (eb es : Z) :
  2 ^ 23 <= Z.pos big -> Z.pos small < 2 ^ 24 -> es < eb ->
  Z.pos small <= Z.pos big * 2 ^ (eb - es).
Proof.
  intros Hb Hs He.
  assert (2 ^ 1 <= 2 ^ (eb - es)) by (apply Z.pow_le_mono_r; lia).
  change (2 ^ 1) with 2 in *. change (2 ^ 23) with 8388608 in *.
  change (2 ^ 24) with 16777216 in *. nia.
Qed.

Lemma Pos_compare_cont_Eq (p q : positive) :
  Pos.compare_cont Eq p q = (Z.pos p ?= Z.pos q).
Proof. reflexivity. Qed.

(** The aligned integer difference behind [b - a] is not negative when
    [a <= b]. *)
Lemma aligned_difference_nonneg sa ma ea sb mb eb :
  valid (S754_finite sa ma ea) = true ->
  valid (S754_finite sb mb eb) = true ->
  leb (S754_finite sa ma ea) (S754_finite sb mb eb) = true ->
  0 <= cond_Zopp sb (Z.pos (fst (shl_align mb eb (Z.min eb ea))))
       - cond_Zopp sa (Z.pos (fst (shl_align ma ea (Z.min eb ea)))).
Proof.
  intros Va Vb Hle.
  apply valid_finite_bounds in Va. destruct Va as (Ha1 & Ha2 & Ha3).
  apply valid_finite_bounds in Vb. destruct Vb as (Hb1 & Hb2 & Hb3).
  rewrite !shl_align_value by lia.
  unfold leb, SFleb, SFcompare in Hle.
  rewrite !Pos_compare_cont_Eq in Hle.
  destruct sa, sb; cbn [cond_Zopp]; try discriminate Hle.
  - (* both negative *)
    destruct (Z.compare_spec ea eb) as [He | He | He]; try discriminate Hle.
    + subst eb. rewrite Z.min_id, Z.sub_diag, Z.pow_0_r.
      destruct (Z.compare_spec (Z.pos ma) (Z.pos mb)); try discriminate Hle; lia.
    + rewrite Z.min_l by lia. rewrite Z.sub_diag, Z.pow_0_r.
      pose proof (scaled_mantissa_dominates ma mb ea eb
                    ltac:(apply Ha3; lia) Hb1 He). lia.
  - (* a negative, b positive *)
    assert (0 < 2 ^ (eb - Z.min eb ea)) by (apply Z.pow_pos_nonneg; lia).
    assert (0 < 2 ^ (ea - Z.min eb ea)) by (apply Z.pow_pos_nonneg; lia).
    nia.
  - (* both positive *)
    destruct (Z.compare_spec ea eb) as [He | He | He]; try discriminate Hle.
    + subst eb. rewrite Z.min_id, Z.sub_diag, Z.pow_0_r.
      destruct (Z.compare_spec (Z.pos ma) (Z.pos mb)); try discriminate Hle; lia.
    + rewrite Z.min_r by lia. rewrite Z.sub_diag, Z.pow_0_r.
      pose proof (scaled_mantissa_dominates mb ma eb ea
                    ltac:(apply Hb3; lia) Ha1 He). lia.
Qed.

Lemma ordered_inv (a b : float) :
  ordered a b = true ->
  valid a = true /\ valid b = true /\
  is_finite a = true /\ is_finite b = true /\ leb a b = true.
Proof.
  unfold ordered. intros H.
  apply Bool.andb_true_iff in H. destruct H as [H Hle].
  apply Bool.andb_true_iff in H. destruct H as [H Fb].
  apply Bool.andb_true_iff in H. destruct H as [H Fa].
  apply Bool.andb_true_iff in H. destruct H as [Va Vb].
  repeat split; assumption.
Qed.

(** For finite representable values, [a <= b] makes [b - a] not below
    zero. *)
Lemma sub_ordered_nonneg (a b : float) :
  ordered a b = true -> leb zero (sub b a) = true.
Proof.
  intros H. apply ordered_inv in H.
  destruct H as (Va & Vb & Fa & Fb & Hle).
  destruct a as [sa | sa | | sa ma ea]; try discriminate Fa;
    destruct b as [sb | sb | | sb mb eb]; try discriminate Fb.
  - destruct sa, sb; reflexivity.
  - destruct sb; [discriminate Hle | reflexivity].
  - destruct sa; [reflexivity | discriminate Hle].
  - pose proof (aligned_difference_nonneg _ _ _ _ _ _ Va Vb Hle) as Hd.
    unfold sub, SFsub. cbv zeta.
    destruct (_ - _) as [ | D | D] in Hd |- *.
    + reflexivity.
    + apply leb_zero_of_sign. apply binary_round_sign.
    + lia.
Qed.

(** And [b <= a] makes [b - a] not above zero. *)
Lemma sub_ordered_nonpos (a b : float) :
  ordered b a = true -> leb (sub b a) zero = true.
Proof.
  intros H. apply ordered_inv in H.
  destruct H as (Vb & Va & Fb & Fa & Hle).
  destruct a as [sa | sa | | sa ma ea]; try discriminate Fa;
    destruct b as [sb | sb | | sb mb eb]; try discriminate Fb.
  - destruct sa, sb; reflexivity.
  - destruct sb; [reflexivity | discriminate Hle].
  - destruct sa; [discriminate Hle | reflexivity].
  - pose proof (aligned_difference_nonneg _ _ _ _ _ _ Vb Va Hle) as Hd.
    rewrite Z.min_comm in Hd.
    unfold sub, SFsub. cbv zeta.
    destruct (_ - _) as [ | D | D] eqn:HD in |- *.
    + reflexivity.
    + lia.
    + apply leb_of_sign_zero. apply binary_round_sign.
Qed.

End Float32Facts.

(** ** The drag state machine *)

(** C8.  A move delivered while the primary button is not held changes
    nothing: the handler, and the window procedure dispatching to it, return
    with the process (shape, anchor, resources, capture and issued calls)
    exactly as it was. *)
Theorem OnMouseMove_without_button_is_noop :
  forall (p : Process) (pixelX pixelY flags wp lp : Z) (env : Backend),
    Z.land flags MK_LBUTTON = 0 ->
    Z.land (DWORD_of wp) MK_LBUTTON = 0 ->
    OnMouseMove pixelX pixelY flags p = Some (tt, p) /\
    HandleMessage WM_MOUSEMOVE wp lp env p = Some (0, p).
Proof.
  intros p pixelX pixelY flags wp lp env Hflags Hwp.
  unfold HandleMessage, OnMouseMove.
  rewrite Hflags.
  unfold bind. rewrite Hwp. split; reflexivity.
Qed.

Lemma OnMouseMove_without_button_is_noop_witness :
  Z.land 0 MK_LBUTTON = 0 /\
  Z.land (DWORD_of 0) MK_LBUTTON = 0 /\
  OnMouseMove 30 40 0 mid_drag = Some (tt, mid_drag) /\
  HandleMessage WM_MOUSEMOVE 0 (MAKELPARAM 30 40) backend_ok mid_drag
    = Some (0, mid_drag).
Proof.
  split; [reflexivity | split; [reflexivity | ]].
  apply (OnMouseMove_without_button_is_noop mid_drag 30 40 0 0
           (MAKELPARAM 30 40) backend_ok); reflexivity.
Defined.

(** C6.  A press at any pixel coordinate, under any scale factors, stores
    the point (pixelX / scaleX, pixelY / scaleY), computed in binary32, both
    as the drag anchor and as the centre of the shape, and sets both radii
    to 1.  With scale 1.0 a press at pixel (100,100) gives the centre
    (100,100) and radii 1. *)
Theorem OnLButtonDown_anchors_unit_dot :
  forall (p : Process) (pixelX pixelY flags : Z),
    (exists p',
       OnLButtonDown pixelX pixelY flags p = Some (tt, p') /\
       ptMouse (win p') =
         Point2F (div (of_Z pixelX) (scaleX (dpi p)))
                 (div (of_Z pixelY) (scaleY (dpi p))) /\
       point (ellipse (win p')) = ptMouse (win p') /\
       radiusX (ellipse (win p')) = of_Z 1 /\
       radiusY (ellipse (win p')) = of_Z 1) /\
    (exists p',
       OnLButtonDown 100 100 flags (set_dpi unit_scale p) = Some (tt, p') /\
       ptMouse (win p') = Point2F (of_Z 100) (of_Z 100) /\
       ellipse (win p') =
         Ellipse (Point2F (of_Z 100) (of_Z 100)) (of_Z 1) (of_Z 1) /\
       denotes_Z (x (point (ellipse (win p')))) 100 = true /\
       denotes_Z (y (point (ellipse (win p')))) 100 = true /\
       denotes_Z (radiusX (ellipse (win p'))) 1 = true /\
       denotes_Z (radiusY (ellipse (win p'))) 1 = true).
Proof.
  intros p pixelX pixelY flags. split.
  - unfold OnLButtonDown. m_unfold.
    eexists. split; [reflexivity | ].
    cbn [win ptMouse ellipse point radiusX radiusY].
    repeat split; reflexivity.
  - unfold OnLButtonDown. m_unfold.
    eexists. split; [reflexivity | ].
    cbn [win ptMouse ellipse point radiusX radiusY D2D1.x D2D1.y].
    repeat split; vm_compute; reflexivity.
Qed.

(** C7.  With scale 1.0, a press at pixel (0,0) followed by a move to pixel
    (50,50) with the primary button held leaves the shape with centre
    (25,25) and both radii 25; the same holds for the messages delivered
    through the window procedure to a window created at 96 DPI. *)
Theorem press_origin_move_50_50 :
  forall (p : Process) (flags : Z),
    (exists p1 p2,
       OnLButtonDown 0 0 flags (set_dpi unit_scale p) = Some (tt, p1) /\
       OnMouseMove 50 50 MK_LBUTTON p1 = Some (tt, p2) /\
       ellipse (win p2) =
         Ellipse (Point2F (of_Z 25) (of_Z 25)) (of_Z 25) (of_Z 25) /\
       denotes_Z (x (point (ellipse (win p2)))) 25 = true /\
       denotes_Z (y (point (ellipse (win p2)))) 25 = true /\
       denotes_Z (radiusX (ellipse (win p2))) 25 = true /\
       denotes_Z (radiusY (ellipse (win p2))) 25 = true) /\
    (exists p2,
       run [ message WM_CREATE 0 0 backend_ok;
             message WM_LBUTTONDOWN MK_LBUTTON (MAKELPARAM 0 0) backend_ok;
             message WM_MOUSEMOVE MK_LBUTTON (MAKELPARAM 50 50) backend_ok ]
           start = Some p2 /\
       dpi p2 = unit_scale /\
       ellipse (win p2) =
         Ellipse (Point2F (of_Z 25) (of_Z 25)) (of_Z 25) (of_Z 25)).
Proof.
  intros p flags. split.
  - unfold OnLButtonDown, OnMouseMove. m_unfold.
    eexists. eexists. split; [reflexivity | ].
    split; [vm_compute; reflexivity | ].
    repeat split; vm_compute; reflexivity.
  - eexists. split; [vm_compute; reflexivity | ].
    split; reflexivity.
Qed.


(** ** Radii of the shape *)

(** C3 as stated does not hold: dragging up and to the left of the anchor
    gives negative radii.  After a press at pixel (10,10) at scale 1.0, a
    move to pixel (0,0) with the button held sets both radii to -5. *)
Lemma drag_up_left_gives_negative_radii :
  exists p',
    OnMouseMove 0 0 MK_LBUTTON pressed = Some (tt, p') /\
    ptMouse (win pressed) = Point2F (of_Z 10) (of_Z 10) /\
    radiusX (ellipse (win p')) = of_Z (-5) /\
    radiusY (ellipse (win p')) = of_Z (-5) /\
    ltb (radiusX (ellipse (win p'))) zero = true /\
    ltb (radiusY (ellipse (win p'))) zero = true /\
    ~ radii_nonneg (ellipse (win p')).
Proof.
  eexists. split; [vm_compute; reflexivity | ].
  repeat split; try (vm_compute; reflexivity).
  intros [H _]. vm_compute in H. discriminate.
Qed.

(** C3, amended.  A press sets both radii to 1, which is not below zero.
    A move with the primary button held sets each radius to the signed
    half-delta (current - anchor) / 2 of its axis, not to its magnitude.
    The radius has the sign of that delta, so for finite coordinates it is
    not below zero when the current point is not before the anchor on the
    axis, and not above zero when it is not after the anchor. *)
Theorem radii_after_shape_update :
  forall (p q : Process) (pressX pressY pressFlags pixelX pixelY flags : Z),
    Z.land flags MK_LBUTTON <> 0 ->
    exists p' q',
      OnLButtonDown pressX pressY pressFlags p = Some (tt, p') /\
      radiusX (ellipse (win p')) = of_Z 1 /\
      radiusY (ellipse (win p')) = of_Z 1 /\
      radii_nonneg (ellipse (win p')) /\
      OnMouseMove pixelX pixelY flags q = Some (tt, q') /\
      let dips := PixelsToDips (dpi q) pixelX pixelY in
      let anchor := ptMouse (win q) in
      let dx := sub (x dips) (x anchor) in
      let dy := sub (y dips) (y anchor) in
      radiusX (ellipse (win q')) = div dx (of_Z 2) /\
      radiusY (ellipse (win q')) = div dy (of_Z 2) /\
      follows_sign dx (radiusX (ellipse (win q'))) /\
      follows_sign dy (radiusY (ellipse (win q'))) /\
      follows_order (x anchor) (x dips) (radiusX (ellipse (win q'))) /\
      follows_order (y anchor) (y dips) (radiusY (ellipse (win q'))).
Proof.
  intros p q pressX pressY pressFlags pixelX pixelY flags Hheld.
  unfold OnLButtonDown, OnMouseMove.
  apply Z.eqb_neq in Hheld. rewrite Hheld.
  cbv beta iota delta [negb]. m_unfold.
  eexists. eexists.
  split; [reflexivity | ].
  cbn [win ellipse radiusX radiusY].
  split; [reflexivity | ]. split; [reflexivity | ].
  split; [split; reflexivity | ].
  split; [reflexivity | ].
  cbv zeta.
  split; [reflexivity | ]. split; [reflexivity | ].
  unfold follows_sign, follows_order.
  repeat split; intros H;
    first [ apply Float32Facts.half_nonneg | apply Float32Facts.half_nonpos ];
    first [ exact H
          | apply Float32Facts.sub_ordered_nonneg; exact H
          | apply Float32Facts.sub_ordered_nonpos; exact H ].
Qed.

Lemma radii_after_shape_update_witness :
  Z.land MK_LBUTTON MK_LBUTTON <> 0 /\
  ordered (x (ptMouse (win pressed)))
          (x (PixelsToDips (dpi pressed) 50 30)) = true /\
  ordered (y (ptMouse (win pressed)))
          (y (PixelsToDips (dpi pressed) 50 30)) = true /\
  exists q',
    OnMouseMove 50 30 MK_LBUTTON pressed = Some (tt, q') /\
    radii_nonneg (ellipse (win q')).
Proof.
  split; [discriminate | ].
  split; [vm_compute; reflexivity | ].
  split; [vm_compute; reflexivity | ].
  destruct (radii_after_shape_update start pressed 10 10 MK_LBUTTON
              50 30 MK_LBUTTON ltac:(discriminate))
    as (p' & q' & _ & _ & _ & _ & Hmove & _ & _ & _ & _ & Hx & Hy).
  exists q'. split; [exact Hmove | ].
  split; [apply Hx | apply Hy]; vm_compute; reflexivity.
Defined.

(** ** The resource lifecycle *)

Lemma DiscardGraphicsResources_eq (p : Process) :
  DiscardGraphicsResources p = Some (tt, discarded p).
Proof.
  destruct p as [[f rt b e a] d c t].
  unfold DiscardGraphicsResources, discarded, release_calls.
  destruct rt as [rt | ]; destruct b as [b | ]; m_unfold;
    rewrite <- ?app_assoc, ?app_nil_r; reflexivity.
Qed.

Lemma discarded_idem (p : Process) : discarded (discarded p) = discarded p.
Proof.
  destruct p as [[f rt b e a] d c t].
  unfold discarded, release_calls. m_unfold.
  rewrite app_nil_r. reflexivity.
Qed.

(** C9.  Discarding the resources always returns and leaves both the
    render target and the brush absent; discarding again at once returns
    the process unchanged, with no further [Release] call, and so leaves
    them absent again. *)
Theorem DiscardGraphicsResources_idempotent :
  forall p : Process,
    exists p1,
      DiscardGraphicsResources p = Some (tt, p1) /\
      pRenderTarget (win p1) = None /\
      pBrush (win p1) = None /\
      DiscardGraphicsResources p1 = Some (tt, p1) /\
      release_calls (win p1) = [].
Proof.
  intros p. exists (discarded p).
  split; [apply DiscardGraphicsResources_eq | ].
  split; [reflexivity | ]. split; [reflexivity | ].
  split; [ | reflexivity].
  rewrite DiscardGraphicsResources_eq, discarded_idem. reflexivity.
Qed.

(** When creation reports success the render target exists, and nothing but
    the two resource members and the trace has changed. *)
Lemma CreateGraphicsResources_success env p hr p1 :
  CreateGraphicsResources env p = Some (hr, p1) ->
  SUCCEEDED hr = true ->
  exists target,
    pRenderTarget (win p1) = Some target /\
    pFactory (win p1) = pFactory (win p) /\
    ellipse (win p1) = ellipse (win p) /\
    ptMouse (win p1) = ptMouse (win p) /\
    dpi p1 = dpi p /\
    captured p1 = captured p.
Proof.
  destruct p as [[f rt b e a] d c t].
  unfold CreateGraphicsResources, com_out. intros H Hhr.
  handler_cases H; inv_some H;
    try congruence; eexists; repeat split; reflexivity.
Qed.

(** With the render target absent and a factory at hand, creation asks the
    backend for a render target. *)
Lemma CreateGraphicsResources_recreates env p factory :
  pRenderTarget (win p) = None ->
  pFactory (win p) = Some factory ->
  exists hr p2 rest,
    CreateGraphicsResources env p = Some (hr, p2) /\
    trace p2 =
      trace p ++
      GetClientRect ::
      CreateHwndRenderTarget factory
        (SizeU (client_right env) (client_bottom env)) :: rest.
Proof.
  destruct p as [[f rt b e a] d c t]. simpl. intros -> ->.
  unfold CreateGraphicsResources, com_out. m_unfold.
  destruct (SUCCEEDED (target_hr env)); m_unfold.
  - destruct (SUCCEEDED (brush_hr env)); m_unfold;
      do 3 eexists; (split; [reflexivity | ]);
      cbn [trace]; rewrite <- !app_assoc; reflexivity.
  - do 3 eexists. split; [reflexivity | ].
    cbn [trace]. rewrite <- !app_assoc. reflexivity.
Qed.

(** C5.  When a paint reaches its frame and [EndDraw] reports a lost
    device or any other failure, the paint still returns normally (the
    window procedure answers 0 whatever the error was), both resources are
    absent afterwards, and the frame was issued once: after [EndDraw] come
    only the releases and [EndPaint].  Shape, anchor, scale and capture are
    untouched, and the next creation asks the backend for a new render
    target. *)
Theorem OnPaint_end_frame_failure_discards :
  forall (env : Backend) (p p1 : Process) (hr : HRESULT) (wp lp : Z),
    CreateGraphicsResources env p = Some (hr, p1) ->
    SUCCEEDED hr = true ->
    FAILED (enddraw_hr env) = true \/ enddraw_hr env = D2DERR_RECREATE_TARGET ->
    exists p' target,
      OnPaint env p = Some (tt, p') /\
      HandleMessage WM_PAINT wp lp env p = Some (0, p') /\
      pRenderTarget (win p1) = Some target /\
      pRenderTarget (win p') = None /\
      pBrush (win p') = None /\
      trace p' =
        trace p1 ++
        frame_calls target (ellipse (win p)) (pBrush (win p1)) ++
        release_calls (win p1) ++ [EndPaint] /\
      pFactory (win p') = pFactory (win p) /\
      ellipse (win p') = ellipse (win p) /\
      ptMouse (win p') = ptMouse (win p) /\
      dpi p' = dpi p /\
      captured p' = captured p /\
      (forall env' factory, pFactory (win p) = Some factory ->
         exists hr' p2 rest,
           CreateGraphicsResources env' p' = Some (hr', p2) /\
           trace p2 =
             trace p' ++
             GetClientRect ::
             CreateHwndRenderTarget factory
               (SizeU (client_right env') (client_bottom env')) :: rest).
Proof.
  intros env p p1 hr wp lp Hcreate Hhr Hend.
  destruct (CreateGraphicsResources_success env p hr p1 Hcreate Hhr)
    as (target & Ht & Hf & He & Ha & Hd & Hc).
  assert (Hcond : FAILED (enddraw_hr env)
                  || (enddraw_hr env =? D2DERR_RECREATE_TARGET) = true).
  { destruct Hend as [-> | ->]; [reflexivity | apply Bool.orb_true_r]. }
  assert (Hpaint : OnPaint env p =
    Some (tt, log EndPaint (discarded
      {| win := win p1; dpi := dpi p1; captured := captured p1;
         trace := trace p1 ++
                  frame_calls target (ellipse (win p1)) (pBrush (win p1)) |}))).
  { unfold OnPaint. unfold bind at 1. rewrite Hcreate, Hhr.
    destruct p1 as [[f1 rt1 b1 e1 a1] d1 c1 t1]. simpl in Ht. subst rt1.
    m_unfold. rewrite Hcond.
    rewrite DiscardGraphicsResources_eq.
    unfold frame_calls. rewrite <- !app_assoc. reflexivity. }
  eexists. exists target.
  split; [exact Hpaint | ].
  split; [unfold HandleMessage, bind; rewrite Hpaint; reflexivity | ].
  split; [exact Ht | ].
  split; [reflexivity | ]. split; [reflexivity | ].
  split.
  { unfold discarded, log. cbn [trace win]. rewrite <- !app_assoc.
    rewrite He. reflexivity. }
  split; [exact Hf | ]. split; [exact He | ]. split; [exact Ha | ].
  split; [exact Hd | ]. split; [exact Hc | ].
  intros env' factory Hfactory.
  apply CreateGraphicsResources_recreates; [reflexivity | ].
  cbn. rewrite <- Hfactory. exact Hf.
Qed.

Lemma OnPaint_end_frame_failure_discards_witness :
  CreateGraphicsResources backend_device_lost created
    = Some (S_OK, ready) /\
  SUCCEEDED S_OK = true /\
  (FAILED (enddraw_hr backend_device_lost) = true \/
   enddraw_hr backend_device_lost = D2DERR_RECREATE_TARGET) /\
  exists p',
    HandleMessage WM_PAINT 0 0 backend_device_lost created = Some (0, p') /\
    pRenderTarget (win p') = None /\
    pBrush (win p') = None.
Proof.
  assert (H1 : CreateGraphicsResources backend_device_lost created
    = Some (S_OK, ready)).
  { reflexivity. }
  split; [exact H1 | ]. split; [reflexivity | ].
  split; [right; reflexivity | ].
  destruct (OnPaint_end_frame_failure_discards backend_device_lost created
              _ S_OK 0 0 H1 eq_refl (or_intror eq_refl))
    as (p' & target & _ & Hmsg & _ & Hrt & Hb & _).
  exists p'. split; [exact Hmsg | ]. split; [exact Hrt | exact Hb].
Defined.

(** The path on which creation stops half way: the render target was
    created, the brush was not, and nothing is released. *)
Lemma CreateGraphicsResources_brush_failure env p factory :
  pRenderTarget (win p) = None ->
  pFactory (win p) = Some factory ->
  SUCCEEDED (target_hr env) = true ->
  SUCCEEDED (brush_hr env) = false ->
  exists p',
    CreateGraphicsResources env p = Some (brush_hr env, p') /\
    pRenderTarget (win p') = Some (target_out env) /\
    pBrush (win p') = None /\
    trace p' = trace p ++ creation_calls factory env.
Proof.
  destruct p as [[f rt b e a] d c t]. simpl. intros -> -> Ht Hb.
  unfold CreateGraphicsResources, com_out. m_unfold.
  rewrite Ht. m_unfold. rewrite Hb. m_unfold.
  eexists. split; [reflexivity | ].
  cbn [win pRenderTarget pBrush trace].
  repeat split. unfold creation_calls. rewrite <- !app_assoc. reflexivity.
Qed.

(** C1 fails on the code.  In a freshly created window, when the backend
    creates the render target and then fails to create the brush,
    [CreateGraphicsResources] returns the failure with the render target
    still held and the brush absent; no [Release] was issued. *)
Theorem brush_failure_leaves_render_target :
  exists p',
    CreateGraphicsResources backend_brush_fails created
      = Some (E_OUTOFMEMORY, p') /\
    FAILED E_OUTOFMEMORY = true /\
    pRenderTarget (win p') = Some 2%positive /\
    pBrush (win p') = None /\
    trace p' = trace created ++ creation_calls 1%positive backend_brush_fails /\
    ~ both_or_neither (win p').
Proof.
  eexists. split; [vm_compute; reflexivity | ].
  repeat split.
  intros [[_ H] | [H _]]; [apply H; reflexivity | discriminate H].
Qed.

(** A paint that starts with no resources and whose two creations succeed
    holds both resources before it draws: [FillEllipse] follows the creation
    calls and is given the new render target and the new brush. *)
Lemma OnPaint_from_uninitialized env p factory :
  pRenderTarget (win p) = None ->
  pFactory (win p) = Some factory ->
  SUCCEEDED (target_hr env) = true ->
  SUCCEEDED (brush_hr env) = true ->
  exists p' rest,
    OnPaint env p = Some (tt, p') /\
    trace p' =
      trace p ++ creation_calls factory env ++
      frame_calls (target_out env) (ellipse (win p)) (Some (brush_out env)) ++
      rest.
Proof.
  destruct p as [[f rt b e a] d c t]. simpl. intros -> -> Ht Hb.
  unfold OnPaint, CreateGraphicsResources, com_out. m_unfold.
  rewrite Ht. m_unfold. rewrite Hb. m_unfold. rewrite Hb. m_unfold.
  destruct (FAILED (enddraw_hr env) || (enddraw_hr env =? D2DERR_RECREATE_TARGET)).
  - m_unfold. rewrite DiscardGraphicsResources_eq.
    do 2 eexists. split; [reflexivity | ].
    unfold discarded, creation_calls, frame_calls. cbn [trace].
    rewrite <- !app_assoc. reflexivity.
  - m_unfold. do 2 eexists. split; [reflexivity | ].
    unfold creation_calls, frame_calls. cbn [trace].
    rewrite <- !app_assoc. reflexivity.
Qed.

(** C2 fails on the code.  After a paint in which the brush could not be
    created, the next paint finds the render target present, creates
    nothing, and issues [FillEllipse] with a null brush. *)
Theorem paint_after_brush_failure_draws_without_brush :
  exists p shape,
    run paint_after_brush_failure start = Some p /\
    In (FillEllipse 2%positive shape None) (trace p) /\
    pBrush (win p) = None /\
    ~ draws_with_brush (trace p).
Proof.
  eexists. eexists.
  split; [vm_compute; reflexivity | ].
  assert (Hin : In (FillEllipse 2%positive
                      (Ellipse (Point2F zero zero) zero zero) None)
                   (trace (after paint_after_brush_failure))).
  { vm_compute. tauto. }
  split; [exact Hin | ].
  split; [reflexivity | ].
  intros H. apply (H _ _ _ Hin). reflexivity.
Qed.

(** ** What a message can change *)

(** Capture is set by a press, cleared by a release of the button, and left
    alone by every other message. *)
Lemma HandleMessage_captured m wp lp env p r p' :
  HandleMessage m wp lp env p = Some (r, p') ->
  captured p' = capture_after m (captured p).
Proof.
  destruct p as [[f rt b e a] d c t]. intros H.
  destruct m; unfold_handlers H; handler_cases H; inv_some H; reflexivity.
Qed.

(** Only [WM_CREATE] writes the scale factors, and only when the factory
    was created. *)
Lemma HandleMessage_dpi m wp lp env p r p' :
  HandleMessage m wp lp env p = Some (r, p') ->
  dpi p' = dpi p \/
  (m = WM_CREATE /\ dpi p' = scale_of_dpi (window_dpi env)).
Proof.
  destruct p as [[f rt b e a] d c t]. intros H.
  destruct m; unfold_handlers H; handler_cases H; inv_some H;
    first [ left; reflexivity | right; split; reflexivity ].
Qed.

(** A message appends calls to the trace, and [ReleaseCapture] is among
    them exactly for [WM_LBUTTONUP]. *)
Lemma HandleMessage_ReleaseCapture m wp lp env p r p' :
  HandleMessage m wp lp env p = Some (r, p') ->
  exists calls,
    trace p' = trace p ++ calls /\
    existsb is_ReleaseCapture calls =
      match m with WM_LBUTTONUP => true | _ => false end.
Proof.
  destruct p as [[f rt b e a] d c t]. intros H.
  destruct m; unfold_handlers H; handler_cases H; inv_some H; trace_suffix.
Qed.

(** A property of the scale pair that holds at the start and is kept by
    every initialisation holds in every reachable process. *)
Lemma run_dpi_invariant (P : DPIScale -> Prop) :
  (forall n, P (scale_of_dpi n)) ->
  forall events p p', P (dpi p) -> run events p = Some p' -> P (dpi p').
Proof.
  intros Hinit events.
  induction events as [ | e events IH]; intros p p' Hp Hrun; simpl in Hrun.
  - injection Hrun as <-. exact Hp.
  - unfold dispatch in Hrun.
    destruct (HandleMessage (uMsg e) (wParam e) (lParam e) (answers e) p)
      as [[r p1] | ] eqn:Hstep; [ | discriminate].
    apply (IH p1 p'); [ | exact Hrun].
    destruct (HandleMessage_dpi _ _ _ _ _ _ _ Hstep) as [-> | [_ ->]];
      [exact Hp | apply Hinit].
Qed.

(** ** Pointer capture *)

(** C4 as stated does not hold: the window procedure does not release the
    capture at teardown.  A press followed by [WM_DESTROY] ends with the
    pointer still captured, and no [ReleaseCapture] was ever issued. *)
Lemma destroy_leaves_pointer_captured :
  exists p,
    run destroy_while_dragging start = Some p /\
    captured p = true /\
    existsb is_ReleaseCapture (trace p) = false /\
    trace p = [ D2D1CreateFactory; GetDpiForWindow;
                SetCapture; InvalidateRect;
                Release 1%positive; PostQuitMessage 0 ].
Proof.
  eexists. split; [vm_compute; reflexivity | ].
  repeat split.
Qed.

(** C4, amended.  Capture acquired at button-down is released at
    button-up: [WM_LBUTTONUP] always returns, issues [ReleaseCapture] and
    leaves the pointer not captured.  Nothing else releases it:
    [WM_DESTROY] and the discard of the resources issue no
    [ReleaseCapture] and leave the capture as it was, and so does every
    message other than a press or a release of the button. *)
Theorem capture_released_at_button_up_only :
  forall (p p' : Process) (m : UMsg) (wp lp : Z) (env : Backend) (r : LRESULT),
    HandleMessage m wp lp env p = Some (r, p') ->
    (exists q,
       HandleMessage WM_LBUTTONUP wp lp env p = Some (0, q) /\
       captured q = false /\
       trace q = trace p ++ [ReleaseCapture]) /\
    (exists q,
       HandleMessage WM_LBUTTONDOWN wp lp env p = Some (0, q) /\
       captured q = true) /\
    (exists q calls,
       HandleMessage WM_DESTROY wp lp env p = Some (0, q) /\
       captured q = captured p /\
       trace q = trace p ++ calls /\
       existsb is_ReleaseCapture calls = false) /\
    (exists q,
       DiscardGraphicsResources p = Some (tt, q) /\
       captured q = captured p /\
       trace q = trace p ++ release_calls (win p) /\
       existsb is_ReleaseCapture (release_calls (win p)) = false) /\
    captured p' = capture_after m (captured p) /\
    (exists calls,
       trace p' = trace p ++ calls /\
       existsb is_ReleaseCapture calls =
         match m with WM_LBUTTONUP => true | _ => false end).
Proof.
  intros p p' m wp lp env r H.
  split.
  { unfold HandleMessage, OnLButtonUp. m_unfold.
    eexists. split; [reflexivity | ]. split; reflexivity. }
  split.
  { unfold HandleMessage, OnLButtonDown. m_unfold.
    eexists. split; reflexivity. }
  split.
  { destruct (HandleMessage WM_DESTROY wp lp env p) as [[r0 q] | ] eqn:Hd.
    - pose proof (HandleMessage_captured _ _ _ _ _ _ _ Hd) as Hc.
      destruct (HandleMessage_ReleaseCapture _ _ _ _ _ _ _ Hd)
        as (calls & Ht & Hn).
      assert (r0 = 0).
      { destruct p as [[f rt b e a] d c t].
        unfold_handlers Hd. handler_cases Hd.
        all: injection Hd as <- _; reflexivity. }
      subst r0. exists q, calls. repeat split; assumption.
    - exfalso. destruct p as [[f rt b e a] d c t].
      unfold_handlers Hd. handler_cases Hd. }
  split.
  { exists (discarded p). split; [apply DiscardGraphicsResources_eq | ].
    split; [reflexivity | ]. split; [reflexivity | ].
    unfold release_calls.
    destruct (pRenderTarget (win p)); destruct (pBrush (win p)); reflexivity. }
  split.
  - exact (HandleMessage_captured _ _ _ _ _ _ _ H).
  - exact (HandleMessage_ReleaseCapture _ _ _ _ _ _ _ H).
Qed.

Lemma capture_released_at_button_up_only_witness :
  (exists p', HandleMessage WM_PAINT 0 0 backend_device_lost pressed
                = Some (0, p')) /\
  exists p',
    HandleMessage WM_PAINT 0 0 backend_device_lost pressed = Some (0, p') /\
    captured p' = true /\
    exists q,
      HandleMessage WM_LBUTTONUP 0 0 backend_device_lost pressed
        = Some (0, q) /\
      captured q = false.
Proof.
  assert (H : exists p', HandleMessage WM_PAINT 0 0 backend_device_lost pressed
                           = Some (0, p')).
  { eexists. vm_compute. reflexivity. }
  split; [exact H | ].
  destruct H as [p' H]. exists p'. split; [exact H | ].
  destruct (capture_released_at_button_up_only pressed p' WM_PAINT 0 0
              backend_device_lost 0 H)
    as ((q & Hup & Hq & _) & _ & _ & _ & Hc & _).
  split; [exact Hc | ].
  exists q. split; [exact Hup | exact Hq].
Defined.

(** ** The scale factors *)

(** C10.  In every reachable process the two scale factors are the same
    binary32 value and compare equal: the pair is either the initial
    (1.0, 1.0) or the single window DPI divided by 96 on both axes, so the
    conversion from pixels divides both coordinates by the same factor. *)
Theorem scale_factors_equal :
  forall p : Process,
    reachable p ->
    scaleX (dpi p) = scaleY (dpi p) /\
    eqb (scaleX (dpi p)) (scaleY (dpi p)) = true /\
    (dpi p = unit_scale \/ exists n, dpi p = scale_of_dpi n) /\
    (forall pixelX pixelY,
       PixelsToDips (dpi p) pixelX pixelY =
       Point2F (div (of_Z pixelX) (scaleX (dpi p)))
               (div (of_Z pixelY) (scaleX (dpi p)))).
Proof.
  intros p [events Hrun].
  assert (Hinv : dpi p = unit_scale \/ exists n, dpi p = scale_of_dpi n).
  { apply (run_dpi_invariant
             (fun d => d = unit_scale \/ exists n, d = scale_of_dpi n))
      with (events := events) (p := start).
    - intros n. right. exists n. reflexivity.
    - left. reflexivity.
    - exact Hrun. }
  assert (Heq : scaleX (dpi p) = scaleY (dpi p)).
  { destruct Hinv as [-> | [n ->]]; reflexivity. }
  split; [exact Heq | ].
  split.
  { rewrite <- Heq. apply Float32Facts.eqb_refl.
    destruct Hinv as [-> | [n ->]];
      [reflexivity | apply Float32Facts.scale_not_nan]. }
  split; [exact Hinv | ].
  intros pixelX pixelY. unfold PixelsToDips. rewrite <- Heq. reflexivity.
Qed.

Lemma scale_factors_equal_witness :
  reachable mid_drag /\
  scaleX (dpi mid_drag) = scaleY (dpi mid_drag) /\
  eqb (scaleX (dpi mid_drag)) (scaleY (dpi mid_drag)) = true.
Proof.
  assert (H : reachable mid_drag).
  { exists drag_10_10_to_50_30. vm_compute. reflexivity. }
  split; [exact H | ].
  destruct (scale_factors_equal mid_drag H) as (H1 & H2 & _).
  split; [exact H1 | exact H2].
Defined.

(** * Further properties of the handlers *)

(** ** Creation and painting *)

Lemma SUCCEEDED_not_failed (hr : HRESULT) :
  SUCCEEDED hr = true ->
  FAILED hr || (hr =? D2DERR_RECREATE_TARGET) = false.
Proof.
  unfold SUCCEEDED, FAILED. intros H. apply Z.leb_le in H.
  apply Bool.orb_false_iff. split.
  - apply Z.ltb_ge. exact H.
  - apply Z.eqb_neq. intros ->. vm_compute in H. apply H. reflexivity.
Qed.

(** A paint whose creation step succeeded: one frame, then the discard
    when [EndDraw] failed, then [EndPaint]. *)
Lemma OnPaint_after_creation env p hr p1 target :
  CreateGraphicsResources env p = Some (hr, p1) ->
  SUCCEEDED hr = true ->
  pRenderTarget (win p1) = Some target ->
  OnPaint env p =
    let framed :=
      {| win := win p1; dpi := dpi p1; captured := captured p1;
         trace := trace p1 ++
                  frame_calls target (ellipse (win p1)) (pBrush (win p1)) |} in
    Some (tt, log EndPaint
      (if FAILED (enddraw_hr env) || (enddraw_hr env =? D2DERR_RECREATE_TARGET)
       then discarded framed else framed)).
Proof.
  intros Hcreate Hhr Ht.
  unfold OnPaint. unfold bind at 1. rewrite Hcreate, Hhr.
  destruct p1 as [[f1 rt1 b1 e1 a1] d1 c1 t1]. simpl in Ht. subst rt1.
  m_unfold.
  destruct (FAILED (enddraw_hr env) || (enddraw_hr env =? D2DERR_RECREATE_TARGET)).
  - m_unfold. rewrite DiscardGraphicsResources_eq.
    unfold frame_calls. rewrite <- !app_assoc. reflexivity.
  - m_unfold. unfold frame_calls. rewrite <- !app_assoc. reflexivity.
Qed.

(** X1.  When the backend refuses the render target, creation returns that
    failure, never asks for a brush, and leaves the render target absent
    and the brush member as it was; a paint in that situation returns
    without [BeginPaint], without a frame and without [EndPaint]. *)
Theorem CreateGraphicsResources_target_failure :
  forall (env : Backend) (p : Process) (factory : handle),
    pRenderTarget (win p) = None ->
    pFactory (win p) = Some factory ->
    SUCCEEDED (target_hr env) = false ->
    exists p',
      CreateGraphicsResources env p = Some (target_hr env, p') /\
      OnPaint env p = Some (tt, p') /\
      pRenderTarget (win p') = None /\
      pBrush (win p') = pBrush (win p) /\
      trace p' =
        trace p ++
        [ GetClientRect;
          CreateHwndRenderTarget factory
            (SizeU (client_right env) (client_bottom env)) ].
Proof.
  intros env [[f rt b e a] d c t] factory. simpl. intros -> -> Ht.
  unfold OnPaint, CreateGraphicsResources, com_out. m_unfold.
  rewrite Ht. m_unfold. rewrite Ht.
  eexists. split; [reflexivity | ]. split; [reflexivity | ].
  cbn [win pRenderTarget pBrush trace].
  repeat split. rewrite <- !app_assoc. reflexivity.
Qed.

Lemma CreateGraphicsResources_target_failure_witness :
  pRenderTarget (win created) = None /\
  pFactory (win created) = Some 1%positive /\
  SUCCEEDED (target_hr backend_target_fails) = false /\
  exists p',
    OnPaint backend_target_fails created = Some (tt, p') /\
    pRenderTarget (win p') = None /\
    count is_frame_call (trace p') = 0%nat.
Proof.
  split; [reflexivity | ]. split; [reflexivity | ]. split; [reflexivity | ].
  destruct (CreateGraphicsResources_target_failure backend_target_fails
              created 1%positive eq_refl eq_refl eq_refl)
    as (p' & _ & Hpaint & Hrt & _ & Ht).
  exists p'. split; [exact Hpaint | ]. split; [exact Hrt | ].
  rewrite Ht. reflexivity.
Defined.

(** X2.  Once creation has reported success, calling it again, whatever
    the backend would answer, changes nothing, issues no call and returns
    [S_OK]. *)
Theorem CreateGraphicsResources_again_is_noop :
  forall (env env' : Backend) (p p1 : Process) (hr : HRESULT),
    CreateGraphicsResources env p = Some (hr, p1) ->
    SUCCEEDED hr = true ->
    CreateGraphicsResources env' p1 = Some (S_OK, p1).
Proof.
  intros env env' p p1 hr Hcreate Hhr.
  destruct (CreateGraphicsResources_success env p hr p1 Hcreate Hhr)
    as (target & Ht & _).
  destruct p1 as [[f1 rt1 b1 e1 a1] d1 c1 t1]. simpl in Ht. subst rt1.
  reflexivity.
Qed.

Lemma CreateGraphicsResources_again_is_noop_witness :
  CreateGraphicsResources backend_ok created = Some (S_OK, ready) /\
  SUCCEEDED S_OK = true /\
  CreateGraphicsResources backend_target_fails ready = Some (S_OK, ready).
Proof.
  assert (H : CreateGraphicsResources backend_ok created = Some (S_OK, ready)).
  { reflexivity. }
  split; [exact H | ]. split; [reflexivity | ].
  exact (CreateGraphicsResources_again_is_noop backend_ok backend_target_fails
           created ready S_OK H eq_refl).
Defined.

(** X3.  A paint that finds the render target in place and whose
    [EndDraw] succeeds creates nothing and releases nothing: the window
    object, the scale and the capture are as before, and the calls issued
    are exactly one frame followed by [EndPaint]. *)
Theorem OnPaint_steady_state :
  forall (env : Backend) (p : Process) (target : handle),
    pRenderTarget (win p) = Some target ->
    SUCCEEDED (enddraw_hr env) = true ->
    exists p',
      OnPaint env p = Some (tt, p') /\
      win p' = win p /\
      dpi p' = dpi p /\
      captured p' = captured p /\
      trace p' =
        trace p ++
        frame_calls target (ellipse (win p)) (pBrush (win p)) ++ [EndPaint].
Proof.
  intros env p target Ht Hend.
  assert (Hcreate : CreateGraphicsResources env p = Some (S_OK, p)).
  { destruct p as [[f rt b e a] d c t]. simpl in Ht. subst rt. reflexivity. }
  rewrite (OnPaint_after_creation env p S_OK p target Hcreate eq_refl Ht).
  cbv zeta. rewrite (SUCCEEDED_not_failed _ Hend).
  eexists. split; [reflexivity | ].
  cbn [log win dpi captured trace].
  repeat split. rewrite <- app_assoc. reflexivity.
Qed.

Lemma OnPaint_steady_state_witness :
  pRenderTarget (win painted) = Some 2%positive /\
  SUCCEEDED (enddraw_hr backend_ok) = true /\
  exists p',
    OnPaint backend_ok painted = Some (tt, p') /\
    win p' = win painted /\
    count is_creation_call (trace p') = 2%nat.
Proof.
  split; [reflexivity | ]. split; [reflexivity | ].
  destruct (OnPaint_steady_state backend_ok painted 2%positive
              eq_refl eq_refl)
    as (p' & Hpaint & Hw & _ & _ & Ht).
  exists p'. split; [exact Hpaint | ]. split; [exact Hw | ].
  rewrite Ht. reflexivity.
Defined.



(** X5.  [WM_DESTROY] always returns 0 and leaves the factory, the render
    target and the brush all null.  Each object that was held is released
    once, the render target first, then the brush, then the factory, and
    [PostQuitMessage(0)] comes last; a second [WM_DESTROY] releases
    nothing more.  Shape, anchor and scale are untouched. *)
Theorem WM_DESTROY_releases_everything_once :
  forall (env env' : Backend) (p : Process) (wp lp wp' lp' : Z),
    exists p',
      HandleMessage WM_DESTROY wp lp env p = Some (0, p') /\
      pFactory (win p') = None /\
      pRenderTarget (win p') = None /\
      pBrush (win p') = None /\
      ellipse (win p') = ellipse (win p) /\
      ptMouse (win p') = ptMouse (win p) /\
      dpi p' = dpi p /\
      trace p' =
        trace p ++ release_calls (win p) ++ factory_release (win p) ++
        [PostQuitMessage 0] /\
      HandleMessage WM_DESTROY wp' lp' env' p' =
        Some (0, log (PostQuitMessage 0) p').
Proof.
  intros env env' [[f rt b e a] d c t] wp lp wp' lp'.
  unfold HandleMessage, DiscardGraphicsResources, release_calls,
    factory_release.
  destruct rt as [rt | ]; destruct b as [b | ]; destruct f as [f | ];
    m_unfold; eexists; (split; [reflexivity | ]);
    cbn [win pFactory pRenderTarget pBrush ellipse ptMouse dpi trace];
    repeat split; rewrite <- ?app_assoc, ?app_nil_r; reflexivity.
Qed.

Lemma HandleMessage_brush_needs_target m wp lp env p r p' :
  brush_needs_target p ->
  HandleMessage m wp lp env p = Some (r, p') ->
  brush_needs_target p'.
Proof.
  destruct p as [[f rt b e a] d c t]. unfold brush_needs_target.
  cbn [win pBrush pRenderTarget]. intros Hinv H.
  destruct m; unfold_handlers H; handler_cases H; inv_some H;
    cbn [win pBrush pRenderTarget];
    first [ left; reflexivity
          | right; discriminate
          | destruct Hinv as [Hinv | Hinv];
            [ left; exact Hinv | right; exact Hinv ]
          | destruct Hinv as [Hinv | Hinv];
            [ discriminate Hinv | exfalso; apply Hinv; reflexivity ] ].
Qed.

(** A property kept by every message holds after every run. *)
Lemma run_invariant (P : Process -> Prop) :
  (forall m wp lp env p r p',
     P p -> HandleMessage m wp lp env p = Some (r, p') -> P p') ->
  forall events p p', P p -> run events p = Some p' -> P p'.
Proof.
  intros Hstep events.
  induction events as [ | e events IH]; intros p p' Hp Hrun; simpl in Hrun.
  - injection Hrun as <-. exact Hp.
  - unfold dispatch in Hrun.
    destruct (HandleMessage (uMsg e) (wParam e) (lParam e) (answers e) p)
      as [[r p1] | ] eqn:Hmsg; [ | discriminate].
    apply (IH p1 p'); [ | exact Hrun].
    exact (Hstep _ _ _ _ _ _ _ Hp Hmsg).
Qed.

(** X6.  In every reachable process a brush is held only together with a
    render target: whatever the backend answers and in whatever order the
    messages come, the brush never outlives or precedes its target. *)
Theorem brush_only_with_render_target :
  forall p : Process,
    reachable p ->
    pBrush (win p) <> None ->
    pRenderTarget (win p) <> None.
Proof.
  intros p [events Hrun] Hb.
  assert (Hinv : brush_needs_target p).
  { apply (run_invariant brush_needs_target
             HandleMessage_brush_needs_target events start p);
      [left; reflexivity | exact Hrun]. }
  destruct Hinv as [Hinv | Hinv]; [contradiction | exact Hinv].
Qed.

Lemma brush_only_with_render_target_witness :
  reachable painted /\
  pBrush (win painted) <> None /\
  pRenderTarget (win painted) <> None.
Proof.
  assert (Hr : reachable painted).
  { exists create_and_paint. vm_compute. reflexivity. }
  assert (Hb : pBrush (win painted) <> None) by discriminate.
  split; [exact Hr | ]. split; [exact Hb | ].
  exact (brush_only_with_render_target painted Hr Hb).
Defined.

(** X7.  Recovery from a lost device.  When a paint ends with a failed
    [EndDraw] and the next paint finds a backend that succeeds, the second
    paint creates a new render target and brush, draws the unchanged shape
    with them, and leaves both in place. *)
Theorem paint_recovers_after_end_frame_failure :
  forall (env env' : Backend) (p p1 : Process) (hr : HRESULT)
         (factory : handle),
    pFactory (win p) = Some factory ->
    CreateGraphicsResources env p = Some (hr, p1) ->
    SUCCEEDED hr = true ->
    FAILED (enddraw_hr env) = true \/ enddraw_hr env = D2DERR_RECREATE_TARGET ->
    SUCCEEDED (target_hr env') = true ->
    SUCCEEDED (brush_hr env') = true ->
    SUCCEEDED (enddraw_hr env') = true ->
    exists p' p'',
      OnPaint env p = Some (tt, p') /\
      OnPaint env' p' = Some (tt, p'') /\
      pRenderTarget (win p'') = Some (target_out env') /\
      pBrush (win p'') = Some (brush_out env') /\
      ellipse (win p'') = ellipse (win p) /\
      trace p'' =
        trace p' ++ creation_calls factory env' ++
        frame_calls (target_out env') (ellipse (win p))
          (Some (brush_out env')) ++
        [EndPaint].
Proof.
  intros env env' p p1 hr factory Hf Hcreate Hhr Hend Ht' Hb' He'.
  destruct (CreateGraphicsResources_success env p hr p1 Hcreate Hhr)
    as (target & Ht & Hf1 & He1 & _).
  assert (Hcond : FAILED (enddraw_hr env)
                  || (enddraw_hr env =? D2DERR_RECREATE_TARGET) = true).
  { destruct Hend as [-> | ->]; [reflexivity | apply Bool.orb_true_r]. }
  rewrite (OnPaint_after_creation env p hr p1 target Hcreate Hhr Ht).
  cbv zeta. rewrite Hcond.
  destruct p1 as [[f1 rt1 b1 e1 a1] d1 c1 t1].
  cbn [win pFactory ellipse] in Hf1, He1. rewrite Hf in Hf1. subst f1 e1.
  eexists. eexists. split; [reflexivity | ].
  unfold OnPaint, CreateGraphicsResources, com_out, discarded, log.
  m_unfold. rewrite Ht'. m_unfold. rewrite Hb'. m_unfold. rewrite Hb'.
  m_unfold. rewrite (SUCCEEDED_not_failed _ He'). m_unfold.
  split; [reflexivity | ].
  cbn [win pRenderTarget pBrush ellipse trace].
  repeat split.
  unfold creation_calls, frame_calls. rewrite <- !app_assoc. reflexivity.
Qed.

Lemma paint_recovers_after_end_frame_failure_witness :
  pFactory (win created) = Some 1%positive /\
  CreateGraphicsResources backend_device_lost created = Some (S_OK, ready) /\
  SUCCEEDED S_OK = true /\
  (FAILED (enddraw_hr backend_device_lost) = true \/
   enddraw_hr backend_device_lost = D2DERR_RECREATE_TARGET) /\
  SUCCEEDED (target_hr backend_ok_again) = true /\
  SUCCEEDED (brush_hr backend_ok_again) = true /\
  SUCCEEDED (enddraw_hr backend_ok_again) = true /\
  exists p' p'',
    OnPaint backend_device_lost created = Some (tt, p') /\
    OnPaint backend_ok_again p' = Some (tt, p'') /\
    pRenderTarget (win p'') = Some 4%positive /\
    pBrush (win p'') = Some 5%positive.
Proof.
  assert (H : CreateGraphicsResources backend_device_lost created
              = Some (S_OK, ready)) by reflexivity.
  split; [reflexivity | ]. split; [exact H | ]. split; [reflexivity | ].
  split; [right; reflexivity | ].
  split; [reflexivity | ]. split; [reflexivity | ]. split; [reflexivity | ].
  destruct (paint_recovers_after_end_frame_failure backend_device_lost
              backend_ok_again created ready S_OK 1%positive
              eq_refl H eq_refl (or_intror eq_refl) eq_refl eq_refl eq_refl)
    as (p' & p'' & H1 & H2 & H3 & H4 & _).
  exists p', p''. repeat split; assumption.
Defined.

(** ** Which message writes what *)

(** X8.  The drag anchor is written only by [WM_LBUTTONDOWN], and the
    shape only by [WM_LBUTTONDOWN] and [WM_MOUSEMOVE]: painting, resizing,
    teardown, creation, button-up and keyboard messages leave both as they
    were. *)
Theorem shape_written_only_by_mouse :
  forall (m : UMsg) (wp lp : Z) (env : Backend) (p p' : Process) (r : LRESULT),
    HandleMessage m wp lp env p = Some (r, p') ->
    (m <> WM_LBUTTONDOWN -> ptMouse (win p') = ptMouse (win p)) /\
    (m <> WM_LBUTTONDOWN -> m <> WM_MOUSEMOVE ->
     ellipse (win p') = ellipse (win p)).
Proof.
  intros m wp lp env [[f rt b e a] d c t] p' r H.
  destruct m; unfold_handlers H; handler_cases H; inv_some H;
    split; intros; first [reflexivity | congruence].
Qed.

Lemma shape_written_only_by_mouse_witness :
  (exists p', HandleMessage WM_PAINT 0 0 backend_device_lost mid_drag
                = Some (0, p')) /\
  WM_PAINT <> WM_LBUTTONDOWN /\
  WM_PAINT <> WM_MOUSEMOVE /\
  exists p',
    HandleMessage WM_PAINT 0 0 backend_device_lost mid_drag = Some (0, p') /\
    ptMouse (win p') = ptMouse (win mid_drag) /\
    ellipse (win p') = ellipse (win mid_drag).
Proof.
  assert (H : exists p', HandleMessage WM_PAINT 0 0 backend_device_lost
                           mid_drag = Some (0, p')).
  { eexists. vm_compute. reflexivity. }
  split; [exact H | ]. split; [discriminate | ]. split; [discriminate | ].
  destruct H as [p' H].
  destruct (shape_written_only_by_mouse WM_PAINT 0 0 backend_device_lost
              mid_drag p' 0 H) as [Ha He].
  exists p'. split; [exact H | ].
  split; [apply Ha; discriminate | apply He; discriminate].
Defined.

(** X9.  The render target and the brush are written only by [WM_PAINT]
    and [WM_DESTROY], and the factory only by [WM_CREATE] and
    [WM_DESTROY]: mouse, keyboard and resize messages never create or
    release a graphics object. *)
Theorem resources_written_only_by_lifecycle :
  forall (m : UMsg) (wp lp : Z) (env : Backend) (p p' : Process) (r : LRESULT),
    HandleMessage m wp lp env p = Some (r, p') ->
    (m <> WM_PAINT -> m <> WM_DESTROY ->
     pRenderTarget (win p') = pRenderTarget (win p) /\
     pBrush (win p') = pBrush (win p)) /\
    (m <> WM_CREATE -> m <> WM_DESTROY ->
     pFactory (win p') = pFactory (win p)) /\
    (m <> WM_PAINT -> m <> WM_DESTROY ->
     exists calls,
       trace p' = trace p ++ calls /\
       count is_creation_call calls = 0%nat /\
       count is_Release calls = 0%nat).
Proof.
  intros m wp lp env [[f rt b e a] d c t] p' r H.
  destruct m; unfold_handlers H; handler_cases H; try absurd_case;
    inv_some H;
    (split; [ | split]); intros;
    first [ congruence
          | solve [split; reflexivity]
          | reflexivity
          | solve [exists []; cbn [trace]; rewrite app_nil_r;
                   repeat split; reflexivity]
          | solve [calls_appended; split; reflexivity] ].
Qed.

Lemma resources_written_only_by_lifecycle_witness :
  (exists p', HandleMessage WM_SIZE 0 0 backend_ok_again painted
                = Some (0, p')) /\
  WM_SIZE <> WM_PAINT /\ WM_SIZE <> WM_DESTROY /\ WM_SIZE <> WM_CREATE /\
  exists p',
    HandleMessage WM_SIZE 0 0 backend_ok_again painted = Some (0, p') /\
    pRenderTarget (win p') = Some 2%positive /\
    pBrush (win p') = Some 3%positive /\
    pFactory (win p') = Some 1%positive.
Proof.
  assert (H : exists p', HandleMessage WM_SIZE 0 0 backend_ok_again painted
                           = Some (0, p')).
  { eexists. vm_compute. reflexivity. }
  split; [exact H | ].
  split; [discriminate | ]. split; [discriminate | ]. split; [discriminate | ].
  destruct H as [p' H].
  destruct (resources_written_only_by_lifecycle WM_SIZE 0 0 backend_ok_again
              painted p' 0 H) as (Hr & Hf & _).
  destruct (Hr ltac:(discriminate) ltac:(discriminate)) as [Hrt Hb].
  exists p'. split; [exact H | ].
  split; [rewrite Hrt; reflexivity | ].
  split; [rewrite Hb; reflexivity | ].
  rewrite (Hf ltac:(discriminate) ltac:(discriminate)). reflexivity.
Defined.

(** X10.  A repaint is requested by exactly three things: a press, a move
    with the primary button held, and a resize while a render target
    exists.  In particular every message that changes the shape asks for
    a repaint. *)
Theorem repaint_requested_exactly_when :
  forall (m : UMsg) (wp lp : Z) (env : Backend) (p p' : Process) (r : LRESULT),
    HandleMessage m wp lp env p = Some (r, p') ->
    exists calls,
      trace p' = trace p ++ calls /\
      existsb is_InvalidateRect calls = requests_repaint m wp (win p) /\
      (count is_InvalidateRect calls <= 1)%nat /\
      (ellipse (win p') <> ellipse (win p) ->
       existsb is_InvalidateRect calls = true).
Proof.
  intros m wp lp env [[f rt b e a] d c t] p' r H.
  unfold requests_repaint, button_held.
  destruct m; unfold_handlers H; handler_cases H; try absurd_case;
    inv_some H;
    first [ exists []; cbn [trace]; rewrite app_nil_r; split; [reflexivity | ]
          | calls_appended ];
    (split; [first [reflexivity | cbn; congruence] | ]);
    (split; [cbv; lia | ]);
    intros Hchange;
    first [ reflexivity | exfalso; apply Hchange; reflexivity ].
Qed.

Lemma repaint_requested_exactly_when_witness :
  (exists p', HandleMessage WM_MOUSEMOVE MK_LBUTTON (MAKELPARAM 70 90)
                backend_ok mid_drag = Some (0, p')) /\
  exists p' calls,
    HandleMessage WM_MOUSEMOVE MK_LBUTTON (MAKELPARAM 70 90)
      backend_ok mid_drag = Some (0, p') /\
    trace p' = trace mid_drag ++ calls /\
    existsb is_InvalidateRect calls = true.
Proof.
  assert (H : exists p', HandleMessage WM_MOUSEMOVE MK_LBUTTON
                (MAKELPARAM 70 90) backend_ok mid_drag = Some (0, p')).
  { eexists. vm_compute. reflexivity. }
  split; [exact H | ].
  destruct H as [p' H].
  destruct (repaint_requested_exactly_when WM_MOUSEMOVE MK_LBUTTON
              (MAKELPARAM 70 90) backend_ok mid_drag p' 0 H)
    as (calls & Ht & Hreq & _).
  exists p', calls. split; [exact H | ]. split; [exact Ht | ].
  rewrite Hreq. reflexivity.
Defined.

(** ** Null dereferences and return values *)

Lemma null_dereference_exactly_when_aux m wp lp env p :
  HandleMessage m wp lp env p = None ->
  m = WM_PAINT /\ pRenderTarget (win p) = None /\ pFactory (win p) = None.
Proof.
  destruct p as [[f rt b e a] d c t]. intros H.
  destruct m; unfold_handlers H; handler_cases H; try absurd_case;
    repeat split; reflexivity.
Qed.

(** X11.  The window procedure dereferences a null pointer in exactly one
    situation: a [WM_PAINT] that finds neither a render target nor a
    factory (a paint before a successful [WM_CREATE] or after
    [WM_DESTROY]).  Every other message, in every state, returns. *)
Theorem null_dereference_exactly_when :
  forall (m : UMsg) (wp lp : Z) (env : Backend) (p : Process),
    HandleMessage m wp lp env p = None <->
    (m = WM_PAINT /\
     pRenderTarget (win p) = None /\
     pFactory (win p) = None).
Proof.
  intros m wp lp env [[f rt b e a] d c t]. split.
  - apply null_dereference_exactly_when_aux.
  - cbn [win pRenderTarget pFactory]. intros (-> & -> & ->). reflexivity.
Qed.

Lemma HandleMessage_keeps_factory m wp lp env p r p' :
  HandleMessage m wp lp env p = Some (r, p') ->
  m <> WM_CREATE -> m <> WM_DESTROY ->
  pFactory (win p') = pFactory (win p).
Proof.
  destruct p as [[f rt b e a] d c t]. intros H Hc Hd.
  destruct m; unfold_handlers H; handler_cases H; inv_some H;
    first [reflexivity | congruence].
Qed.

(** X12.  Once the factory exists, no sequence of messages that contains
    neither [WM_CREATE] nor [WM_DESTROY] can stop on a null pointer,
    whatever the backend answers: the whole sequence is processed and the
    factory is still the same at the end. *)
Theorem run_never_stops_while_factory_lives :
  forall (events : list Event) (p : Process) (factory : handle),
    pFactory (win p) = Some factory ->
    forallb keeps_factory events = true ->
    exists p',
      run events p = Some p' /\
      pFactory (win p') = Some factory.
Proof.
  intros events. induction events as [ | e events IH];
    intros p factory Hf Hall.
  - exists p. split; [reflexivity | exact Hf].
  - cbn [forallb] in Hall. apply Bool.andb_true_iff in Hall.
    destruct Hall as [He Hall].
    cbn [run]. unfold dispatch.
    destruct (HandleMessage (uMsg e) (wParam e) (lParam e) (answers e) p)
      as [[r p1] | ] eqn:Hmsg.
    + apply (IH p1 factory); [ | exact Hall].
      rewrite <- Hf.
      apply (HandleMessage_keeps_factory _ _ _ _ _ _ _ Hmsg);
        unfold keeps_factory in He; intros Heq; rewrite Heq in He;
        discriminate He.
    + apply null_dereference_exactly_when_aux in Hmsg.
      destruct Hmsg as (_ & _ & Hnone). congruence.
Qed.

Lemma run_never_stops_while_factory_lives_witness :
  pFactory (win created) = Some 1%positive /\
  forallb keeps_factory busy_session = true /\
  exists p',
    run busy_session created = Some p' /\
    pFactory (win p') = Some 1%positive.
Proof.
  split; [reflexivity | ]. split; [reflexivity | ].
  exact (run_never_stops_while_factory_lives busy_session created 1%positive
           eq_refl eq_refl).
Defined.

(** X13.  Keyboard messages and messages without a case of their own
    never touch the window object, the scale or the capture: they are
    passed to [DefWindowProc], after one line to the debugger for the six
    keyboard messages, and the procedure returns what [DefWindowProc]
    answered. *)
Theorem unhandled_messages_are_forwarded :
  forall (m : UMsg) (wp lp : Z) (env : Backend) (p : Process),
    handled m = false ->
    exists p',
      HandleMessage m wp lp env p = Some (defproc_ret env, p') /\
      win p' = win p /\
      dpi p' = dpi p /\
      captured p' = captured p /\
      trace p' =
        trace p ++
        (if logged m then [OutputDebugString m wp] else []) ++
        [DefWindowProc m wp lp].
Proof.
  intros m wp lp env [w d c t] Hm.
  destruct m; try discriminate Hm;
    unfold HandleMessage; m_unfold;
    eexists; (split; [reflexivity | ]);
    cbn [win dpi captured trace logged];
    repeat split; rewrite <- ?app_assoc; reflexivity.
Qed.

Lemma unhandled_messages_are_forwarded_witness :
  handled WM_SYSKEYDOWN = false /\
  exists p',
    HandleMessage WM_SYSKEYDOWN 0x79 0 backend_ok mid_drag = Some (0, p') /\
    win p' = win mid_drag.
Proof.
  split; [reflexivity | ].
  destruct (unhandled_messages_are_forwarded WM_SYSKEYDOWN 0x79 0 backend_ok
              mid_drag eq_refl) as (p' & H & Hw & _).
  exists p'. split; [exact H | exact Hw].
Defined.

(** X14.  The seven messages with a returning case are never passed to
    [DefWindowProc] and write nothing to the debugger.  They answer 0,
    except that [WM_CREATE] answers -1 exactly when the factory could not
    be created, in which case the scale factors are left as they were. *)
Theorem handled_messages_answer :
  forall (m : UMsg) (wp lp : Z) (env : Backend) (p p' : Process) (r : LRESULT),
    handled m = true ->
    HandleMessage m wp lp env p = Some (r, p') ->
    (r = 0 \/ r = -1) /\
    (r = -1 <-> m = WM_CREATE /\ FAILED (factory_hr env) = true) /\
    (r = -1 -> dpi p' = dpi p /\ pFactory (win p') = None) /\
    exists calls,
      trace p' = trace p ++ calls /\
      count is_DefWindowProc calls = 0%nat.
Proof.
  intros m wp lp env [[f rt b e a] d c t] p' r Hm H.
  destruct m; try discriminate Hm;
    unfold_handlers H; handler_cases H; try absurd_case; try absurd_hr;
    inv_some H;
    (split; [first [left; reflexivity | right; reflexivity] | ]);
    (split; [split; intros Hr;
              first [ discriminate Hr
                    | reflexivity
                    | solve [split; reflexivity]
                    | destruct Hr as [Hr1 Hr2];
                      first [discriminate Hr1 | discriminate Hr2] ]
            | ]);
    (split; [intros Hr; first [discriminate Hr | split; reflexivity] | ]);
    first [ exists []; cbn [trace]; rewrite app_nil_r; split; reflexivity
          | calls_appended; reflexivity ].
Qed.

Lemma handled_messages_answer_witness :
  handled WM_CREATE = true /\
  (exists p', HandleMessage WM_CREATE 0 0 backend_ok start = Some (0, p')) /\
  exists p' calls,
    HandleMessage WM_CREATE 0 0 backend_ok start = Some (0, p') /\
    trace p' = trace start ++ calls /\
    count is_DefWindowProc calls = 0%nat.
Proof.
  assert (H : exists p', HandleMessage WM_CREATE 0 0 backend_ok start
                           = Some (0, p')).
  { eexists. vm_compute. reflexivity. }
  split; [reflexivity | ]. split; [exact H | ].
  destruct H as [p' H].
  destruct (handled_messages_answer WM_CREATE 0 0 backend_ok start p' 0
              eq_refl H) as (_ & _ & _ & calls & Ht & Hc).
  exists p', calls. split; [exact H | ]. split; [exact Ht | exact Hc].
Defined.

(** ** Scale factors and coordinates *)

Lemma of_Z_sign (n : Z) : has_sign (n <? 0) (of_Z n) = true.
Proof.
  unfold of_Z. destruct n as [ | n | n]; cbn [binary_normalize Z.ltb Z.compare].
  - reflexivity.
  - apply Float32Facts.binary_round_sign.
  - apply Float32Facts.binary_round_sign.
Qed.

Lemma of_Z_nonneg_sign (n : Z) : 0 <= n -> has_sign false (of_Z n) = true.
Proof.
  intros H. replace false with (n <? 0); [apply of_Z_sign | ].
  apply Z.ltb_ge. exact H.
Qed.

Lemma scale_of_dpi_nonneg (n : Z) :
  0 <= n ->
  leb zero (scaleX (scale_of_dpi n)) = true /\
  leb zero (scaleY (scale_of_dpi n)) = true.
Proof.
  intros H. unfold scale_of_dpi. cbn [scaleX scaleY].
  assert (Hs : leb zero (div (of_Z n) (of_Z 96)) = true).
  { apply Float32Facts.leb_zero_of_sign. rewrite Float32Facts.of_Z_96.
    apply Float32Facts.SFdiv_positive_sign. apply of_Z_nonneg_sign. exact H. }
  split; exact Hs.
Qed.

(** X15.  Whatever unsigned DPI values the host reports, in whatever
    messages, the scale factors of a process started from scratch are
    never negative and never NaN. *)
Theorem scale_factors_never_negative :
  forall (events : list Event) (p : Process),
    run events start = Some p ->
    forallb reports_unsigned_dpi events = true ->
    leb zero (scaleX (dpi p)) = true /\
    leb zero (scaleY (dpi p)) = true /\
    is_nan (scaleX (dpi p)) = false /\
    is_nan (scaleY (dpi p)) = false.
Proof.
  intros events p Hrun Hall.
  assert (Hinv : leb zero (scaleX (dpi p)) = true /\
                 leb zero (scaleY (dpi p)) = true).
  { assert (Hstart : leb zero (scaleX (dpi start)) = true /\
                     leb zero (scaleY (dpi start)) = true)
      by (split; reflexivity).
    revert Hrun Hall Hstart. generalize start as q.
    induction events as [ | e events IH]; intros q Hrun Hall Hq.
    - injection Hrun as <-. exact Hq.
    - cbn [forallb] in Hall. apply Bool.andb_true_iff in Hall.
      destruct Hall as [He Hall].
      cbn [run] in Hrun. unfold dispatch in Hrun.
      destruct (HandleMessage (uMsg e) (wParam e) (lParam e) (answers e) q)
        as [[r q1] | ] eqn:Hmsg; [ | discriminate].
      apply (IH q1 Hrun Hall).
      destruct (HandleMessage_dpi _ _ _ _ _ _ _ Hmsg) as [-> | [_ ->]];
        [exact Hq | ].
      apply scale_of_dpi_nonneg. apply Z.leb_le. exact He. }
  destruct Hinv as [Hx Hy].
  split; [exact Hx | ]. split; [exact Hy | ].
  split.
  - destruct (scaleX (dpi p)); try discriminate Hx; reflexivity.
  - destruct (scaleY (dpi p)); try discriminate Hy; reflexivity.
Qed.

Lemma scale_factors_never_negative_witness :
  run drag_10_10_to_50_30 start = Some mid_drag /\
  forallb reports_unsigned_dpi drag_10_10_to_50_30 = true /\
  leb zero (scaleX (dpi mid_drag)) = true /\
  leb zero (scaleY (dpi mid_drag)) = true.
Proof.
  assert (H : run drag_10_10_to_50_30 start = Some mid_drag).
  { vm_compute. reflexivity. }
  split; [exact H | ]. split; [reflexivity | ].
  destruct (scale_factors_never_negative drag_10_10_to_50_30 mid_drag H
              eq_refl) as (Hx & Hy & _).
  split; [exact Hx | exact Hy].
Defined.

Lemma div_positive_finite_nonneg (n : Z) (f : float) :
  positive_finite f = true -> 0 <= n -> leb zero (div (of_Z n) f) = true.
Proof.
  intros Hf Hn.
  destruct f as [s | s | | s m e]; try discriminate Hf.
  destruct s; [discriminate Hf | ].
  apply Float32Facts.leb_zero_of_sign.
  apply Float32Facts.SFdiv_positive_sign. apply of_Z_nonneg_sign. exact Hn.
Qed.

Lemma div_positive_finite_nonpos (n : Z) (f : float) :
  positive_finite f = true -> n <= 0 -> leb (div (of_Z n) f) zero = true.
Proof.
  intros Hf Hn.
  destruct f as [s | s | | s m e]; try discriminate Hf.
  destruct s; [discriminate Hf | ].
  destruct (Z.eq_dec n 0) as [-> | Hne].
  - reflexivity.
  - apply Float32Facts.leb_of_sign_zero.
    apply Float32Facts.SFdiv_positive_sign.
    pose proof (of_Z_sign n) as Hs.
    assert (Hlt : (n <? 0) = true) by (apply Z.ltb_lt; lia).
    rewrite Hlt in Hs. exact Hs.
Qed.

(** X16.  With positive finite scale factors the conversion to
    device-independent units never flips a sign: a pixel coordinate that
    is not negative converts to a value not below zero, and one that is
    not positive to a value not above zero, on each axis and however much
    the quotient is rounded. *)
Theorem PixelsToDips_keeps_sign :
  forall (d : DPIScale) (pixelX pixelY : Z),
    positive_finite (scaleX d) = true ->
    positive_finite (scaleY d) = true ->
    (0 <= pixelX -> leb zero (x (PixelsToDips d pixelX pixelY)) = true) /\
    (pixelX <= 0 -> leb (x (PixelsToDips d pixelX pixelY)) zero = true) /\
    (0 <= pixelY -> leb zero (y (PixelsToDips d pixelX pixelY)) = true) /\
    (pixelY <= 0 -> leb (y (PixelsToDips d pixelX pixelY)) zero = true).
Proof.
  intros d pixelX pixelY Hx Hy. unfold PixelsToDips. cbn [x y].
  repeat split; intros H.
  - apply div_positive_finite_nonneg; assumption.
  - apply div_positive_finite_nonpos; assumption.
  - apply div_positive_finite_nonneg; assumption.
  - apply div_positive_finite_nonpos; assumption.
Qed.

Lemma PixelsToDips_keeps_sign_witness :
  positive_finite (scaleX (scale_of_dpi 144)) = true /\
  positive_finite (scaleY (scale_of_dpi 144)) = true /\
  leb zero (x (PixelsToDips (scale_of_dpi 144) 7 (-3))) = true /\
  leb (y (PixelsToDips (scale_of_dpi 144) 7 (-3))) zero = true.
Proof.
  split; [reflexivity | ]. split; [reflexivity | ].
  destruct (PixelsToDips_keeps_sign (scale_of_dpi 144) 7 (-3)
              eq_refl eq_refl) as (Hx & _ & _ & Hy).
  split; [apply Hx; lia | apply Hy; lia].
Defined.

(** *** Exact conversions *)

Lemma digits2_pos_shift (m k : positive) :
  digits2_pos (Pos.iter xO m k) = (digits2_pos m + k)%positive.
Proof.
  induction k as [ | k IH] using Pos.peano_ind.
  - cbn. rewrite Pos.add_1_r. reflexivity.
  - rewrite Pos.iter_succ. cbn [digits2_pos]. rewrite IH.
    rewrite Pos.add_succ_r. reflexivity.
Qed.

(** A mantissa of 24 digits at an exponent in range is already rounded. *)
Lemma binary_round_aux_normal (s : bool) (m : positive) (e : Z) :
  Z.pos (digits2_pos m) = 24 -> -149 <= e <= 104 ->
  binary_round_aux prec emax s (Z.pos m) e loc_Exact = S754_finite s m e.
Proof.
  intros Hd He.
  unfold binary_round_aux, shr_fexp, fexp, emin.
  cbn [Zdigits2 shr_record_of_loc]. rewrite Hd.
  replace (Z.max (24 + e - prec) (3 - emax - prec) - e) with 0
    by (unfold prec, emax; lia).
  cbn [shr shr_m loc_of_shr_record round_nearest_even Zdigits2
       shr_record_of_loc].
  rewrite Hd.
  replace (Z.max (24 + e - prec) (3 - emax - prec) - e) with 0
    by (unfold prec, emax; lia).
  cbn [shr shr_m].
  destruct (Z.leb_spec e (emax - prec)) as [_ | Hgt];
    [reflexivity | unfold prec, emax in Hgt; lia].
Qed.

(** The conversion of an integer below 2^24 in magnitude: the mantissa is
    the integer shifted to 24 digits. *)
Lemma of_Z_small (n : positive) (s : bool) :
  Z.pos n < 2 ^ 24 ->
  exists m e,
    binary_round prec emax s n 0 = S754_finite s m e /\
    Z.pos (digits2_pos m) = 24 /\
    -23 <= e <= 0 /\
    Z.pos m = Z.pos n * 2 ^ (- e).
Proof.
  intros Hn.
  pose proof (Float32Facts.digits2_pos_bounds n) as [Hlo Hhi].
  assert (Hdg : Z.pos (digits2_pos n) <= 24).
  { destruct (Z.le_gt_cases (Z.pos (digits2_pos n)) 24) as [H | H]; trivial.
    assert (2 ^ 24 <= 2 ^ (Z.pos (digits2_pos n) - 1))
      by (apply Z.pow_le_mono_r; lia).
    lia. }
  unfold binary_round, fexp, emin.
  replace (Z.max (Z.pos (digits2_pos n) + 0 - prec) (3 - emax - prec))
    with (Z.pos (digits2_pos n) - 24) by (unfold prec, emax; lia).
  pose proof (Float32Facts.shl_align_value n 0
                (Z.pos (digits2_pos n) - 24) ltac:(lia)) as Hval.
  unfold shl_align in *.
  destruct (Z.pos (digits2_pos n) - 24 - 0) as [ | k | k] eqn:Hk; [ | lia | ].
  - cbn [fst] in Hval.
    exists n, 0. split; [ | split; [ | split]].
    + apply binary_round_aux_normal; lia.
    + lia.
    + lia.
    + cbn. lia.
  - cbn [fst] in Hval.
    exists (Pos.iter xO n k), (Z.pos (digits2_pos n) - 24).
    split; [ | split; [ | split]].
    + apply binary_round_aux_normal; [ | lia].
      rewrite digits2_pos_shift. lia.
    + rewrite digits2_pos_shift. lia.
    + lia.
    + rewrite Z.sub_0_l in Hval. exact Hval.
Qed.

Lemma Z_div_eucl_eq (a b : Z) : Z.div_eucl a b = (a / b, a mod b).
Proof. unfold Z.div, Z.modulo. destruct (Z.div_eucl a b). reflexivity. Qed.

(** Dividing a normal value by 1.0 gives the value back. *)
Lemma div_one_normal (s : bool) (m : positive) (e : Z) :
  Z.pos (digits2_pos m) = 24 -> -148 <= e <= 104 ->
  div (S754_finite s m e) (of_Z 1) = S754_finite s m e.
Proof.
  intros Hd He.
  change (of_Z 1) with (S754_finite false 8388608 (-23)).
  unfold div, SFdiv, SFdiv_core_binary, fexp, emin.
  cbn [Zdigits2]. rewrite Hd.
  change (Z.pos (digits2_pos 8388608)) with 24.
  replace (Z.min (Z.max (24 + e - (24 + -23) - prec) (3 - emax - prec))
                 (e - -23)) with (e - 1) by (unfold prec, emax; lia).
  replace (e - -23 - (e - 1)) with 24 by lia.
  rewrite Z_div_eucl_eq.
  rewrite Z.shiftl_mul_pow2 by lia.
  replace (Z.pos m * 2 ^ 24) with (Z.pos m~0 * Z.pos 8388608) by lia.
  rewrite Z.div_mul by lia. rewrite Z.mod_mul by lia.
  change (new_location (Z.pos 8388608) 0) with loc_Exact.
  rewrite Bool.xorb_false_r.
  unfold binary_round_aux, shr_fexp, fexp, emin.
  cbn [Zdigits2 digits2_pos shr_record_of_loc]. rewrite Pos2Z.inj_succ, Hd.
  replace (Z.max (Z.succ 24 + (e - 1) - prec) (3 - emax - prec) - (e - 1))
    with 1 by (unfold prec, emax; lia).
  cbn [shr iter_pos shr_1 shr_m loc_of_shr_record round_nearest_even
       Zdigits2 shr_record_of_loc orb].
  rewrite Hd.
  replace (Z.max (24 + (e - 1 + 1) - prec) (3 - emax - prec) - (e - 1 + 1))
    with 0 by (unfold prec, emax; lia).
  cbn [shr shr_m].
  replace (e - 1 + 1) with e by lia.
  destruct (Z.leb_spec e (emax - prec)) as [_ | Hgt];
    [reflexivity | unfold prec, emax in Hgt; lia].
Qed.

(** Integers below 2^24 in magnitude convert exactly at scale 1.0. *)
Lemma exact_at_unit_scale_small (n : Z) :
  - 2 ^ 24 < n < 2 ^ 24 -> exact_at_unit_scale n = true.
Proof.
  intros Hn. unfold exact_at_unit_scale, of_Z.
  destruct n as [ | n | n]; cbn [binary_normalize].
  - reflexivity.
  - destruct (of_Z_small n false ltac:(lia)) as (m & e & -> & Hd & He & Hm).
    rewrite div_one_normal by lia.
    unfold denotes_Z, to_fraction.
    destruct (Z.leb_spec 0 e) as [H0 | H0].
    + replace e with 0 in * by lia. apply Z.eqb_eq. cbn in Hm. lia.
    + apply Z.eqb_eq. exact Hm.
  - destruct (of_Z_small n true ltac:(lia)) as (m & e & -> & Hd & He & Hm).
    rewrite div_one_normal by lia.
    unfold denotes_Z, to_fraction.
    destruct (Z.leb_spec 0 e) as [H0 | H0].
    + replace e with 0 in * by lia. apply Z.eqb_eq. cbn in Hm. lia.
    + apply Z.eqb_eq. lia.
Qed.

Lemma word_range (l : Z) : 0 <= Z.land l 0xffff < 2 ^ 16.
Proof.
  change 0xffff with (Z.ones 16). rewrite Z.land_ones by lia.
  apply Z.mod_pos_bound. lia.
Qed.

Lemma short_of_range (w : Z) :
  0 <= w < 2 ^ 16 -> - 2 ^ 15 <= short_of w < 2 ^ 15.
Proof.
  unfold short_of. intros H.
  destruct (Z.ltb_spec w (2 ^ 15)); lia.
Qed.

(** The coordinates the procedure extracts from [lParam] are signed 16-bit
    numbers. *)
Lemma mouse_position_range (lp : Z) :
  - 2 ^ 15 <= GET_X_LPARAM lp < 2 ^ 15 /\
  - 2 ^ 15 <= GET_Y_LPARAM lp < 2 ^ 15.
Proof.
  unfold GET_X_LPARAM, GET_Y_LPARAM, LOWORD, HIWORD.
  split; apply short_of_range; apply word_range.
Qed.

(** X17.  In a window whose scale was initialised from 96 DPI, a press
    loses nothing in the conversion: for pixel coordinates below 2^24 in
    magnitude the anchor, and with it the centre of the shape, is exactly
    the pixel position.  The positions the window procedure extracts from
    [lParam] are signed 16-bit numbers, so this holds for every press
    message. *)
Theorem press_at_96_dpi_is_exact :
  forall (p : Process) (pixelX pixelY flags wp lp : Z) (env : Backend),
    dpi p = scale_of_dpi 96 ->
    - 2 ^ 24 < pixelX < 2 ^ 24 ->
    - 2 ^ 24 < pixelY < 2 ^ 24 ->
    (exists p',
       OnLButtonDown pixelX pixelY flags p = Some (tt, p') /\
       denotes_Z (x (ptMouse (win p'))) pixelX = true /\
       denotes_Z (y (ptMouse (win p'))) pixelY = true /\
       point (ellipse (win p')) = ptMouse (win p')) /\
    (exists p',
       HandleMessage WM_LBUTTONDOWN wp lp env p = Some (0, p') /\
       denotes_Z (x (ptMouse (win p'))) (GET_X_LPARAM lp) = true /\
       denotes_Z (y (ptMouse (win p'))) (GET_Y_LPARAM lp) = true /\
       point (ellipse (win p')) = ptMouse (win p') /\
       - 2 ^ 15 <= GET_X_LPARAM lp < 2 ^ 15 /\
       - 2 ^ 15 <= GET_Y_LPARAM lp < 2 ^ 15).
Proof.
  intros [w d c t] pixelX pixelY flags wp lp env Hd Hx Hy.
  cbn [dpi] in Hd. subst d.
  destruct (mouse_position_range lp) as [Hlx Hly].
  split.
  - unfold OnLButtonDown, PixelsToDips. m_unfold.
    eexists. split; [reflexivity | ].
    cbn [win ptMouse ellipse point D2D1.x D2D1.y].
    split; [exact (exact_at_unit_scale_small _ Hx) | ].
    split; [exact (exact_at_unit_scale_small _ Hy) | reflexivity].
  - unfold HandleMessage, OnLButtonDown, PixelsToDips. m_unfold.
    eexists. split; [reflexivity | ].
    cbn [win ptMouse ellipse point D2D1.x D2D1.y].
    split; [apply exact_at_unit_scale_small; lia | ].
    split; [apply exact_at_unit_scale_small; lia | ].
    split; [reflexivity | ].
    split; [exact Hlx | exact Hly].
Qed.

Lemma press_at_96_dpi_is_exact_witness :
  dpi created = scale_of_dpi 96 /\
  - 2 ^ 24 < 1000000 < 2 ^ 24 /\
  - 2 ^ 24 < -123457 < 2 ^ 24 /\
  exists p',
    OnLButtonDown 1000000 (-123457) MK_LBUTTON created = Some (tt, p') /\
    denotes_Z (x (ptMouse (win p'))) 1000000 = true /\
    denotes_Z (y (ptMouse (win p'))) (-123457) = true.
Proof.
  split; [reflexivity | ]. split; [lia | ]. split; [lia | ].
  destruct (press_at_96_dpi_is_exact created 1000000 (-123457) MK_LBUTTON
              MK_LBUTTON (MAKELPARAM (-7) 300) backend_ok eq_refl
              ltac:(lia) ltac:(lia))
    as ((p' & H & Hx & Hy & _) & _).
  exists p'. split; [exact H | ]. split; [exact Hx | exact Hy].
Defined.

(** X18.  During a drag only the last move counts: a move with the button
    held gives the same window object whether or not another move, held
    or not, came just before it, and it never changes the anchor.  Shapes
    are overwritten, not accumulated. *)
Theorem last_move_wins :
  forall (p : Process) (x1 y1 flags1 x2 y2 flags2 : Z),
    Z.land flags2 MK_LBUTTON <> 0 ->
    exists p1 p2 q,
      OnMouseMove x1 y1 flags1 p = Some (tt, p1) /\
      OnMouseMove x2 y2 flags2 p1 = Some (tt, p2) /\
      OnMouseMove x2 y2 flags2 p = Some (tt, q) /\
      win p2 = win q /\
      ptMouse (win p2) = ptMouse (win p) /\
      ellipse (win p2) =
        let dips := PixelsToDips (dpi p) x2 y2 in
        let anchor := ptMouse (win p) in
        let w := div (sub (x dips) (x anchor)) (of_Z 2) in
        let h := div (sub (y dips) (y anchor)) (of_Z 2) in
        Ellipse (Point2F (add (x anchor) w) (add (y anchor) h)) w h.
Proof.
  intros [[f rt b e a] d c t] x1 y1 flags1 x2 y2 flags2 Hheld.
  unfold OnMouseMove. apply Z.eqb_neq in Hheld. rewrite Hheld.
  destruct (Z.land flags1 MK_LBUTTON =? 0);
    cbv beta iota delta [negb]; m_unfold;
    do 3 eexists; repeat split; reflexivity.
Qed.

Lemma last_move_wins_witness :
  Z.land MK_LBUTTON MK_LBUTTON <> 0 /\
  exists p1 p2 q,
    OnMouseMove 50 30 MK_LBUTTON pressed = Some (tt, p1) /\
    OnMouseMove 20 80 MK_LBUTTON p1 = Some (tt, p2) /\
    OnMouseMove 20 80 MK_LBUTTON pressed = Some (tt, q) /\
    win p2 = win q.
Proof.
  split; [discriminate | ].
  destruct (last_move_wins pressed 50 30 MK_LBUTTON 20 80 MK_LBUTTON
              ltac:(discriminate))
    as (p1 & p2 & q & H1 & H2 & H3 & Hw & _).
  exists p1, p2, q. repeat split; assumption.
Defined.

(** *** Exact arithmetic on normal values *)

Lemma iter_pos_shr_1_exact (k m : positive) :
  iter_pos shr_1 k (Build_shr_record (Z.pos (Pos.iter xO m k)) false false)
  = Build_shr_record (Z.pos m) false false.
Proof.
  revert m. induction k as [k IH | k IH | ]; intros m.
  - cbn [iter_pos Pos.iter shr_1 orb]. rewrite IH, IH. reflexivity.
  - cbn [iter_pos Pos.iter]. rewrite IH, IH. reflexivity.
  - reflexivity.
Qed.

Lemma pos_iter_xO_value (m k : positive) :
  Z.pos (Pos.iter xO m k) = Z.pos m * 2 ^ Z.pos k.
Proof.
  change (Pos.iter xO m k) with (shift (Z.pos k) m).
  rewrite shift_equiv by lia. apply Z.shiftl_mul_pow2. lia.
Qed.

(** A mantissa of 24 digits followed by [k] zero bits is rounded by
    dropping the zeros. *)
Lemma binary_round_aux_shifted (s : bool) (m k : positive) (e : Z) :
  Z.pos (digits2_pos m) = 24 -> -149 <= e + Z.pos k <= 104 ->
  binary_round_aux prec emax s (Z.pos (Pos.iter xO m k)) e loc_Exact
  = S754_finite s m (e + Z.pos k).
Proof.
  intros Hd He.
  unfold binary_round_aux, shr_fexp, fexp, emin.
  cbn [Zdigits2 shr_record_of_loc].
  rewrite digits2_pos_shift, Pos2Z.inj_add, Hd.
  replace (Z.max (24 + Z.pos k + e - prec) (3 - emax - prec) - e)
    with (Z.pos k) by (unfold prec, emax; lia).
  cbn [shr]. rewrite iter_pos_shr_1_exact.
  cbn [shr_m loc_of_shr_record round_nearest_even Zdigits2
       shr_record_of_loc].
  rewrite Hd.
  replace (Z.max (24 + (e + Z.pos k) - prec) (3 - emax - prec)
           - (e + Z.pos k)) with 0 by (unfold prec, emax; lia).
  cbn [shr shr_m].
  destruct (Z.leb_spec (e + Z.pos k) (emax - prec)) as [_ | Hgt];
    [reflexivity | unfold prec, emax in Hgt; lia].
Qed.

Lemma digits2_pos_unique (m : positive) (d : Z) :
  2 ^ (d - 1) <= Z.pos m < 2 ^ d -> Z.pos (digits2_pos m) = d.
Proof.
  intros [Hlo Hhi].
  pose proof (Float32Facts.digits2_pos_bounds m) as [Blo Bhi].
  set (dg := Z.pos (digits2_pos m)) in *.
  assert (Hdg : 0 < dg) by (unfold dg; lia).
  destruct (Z.lt_trichotomy dg d) as [Hlt | [Heq | Hgt]]; [ | exact Heq | ].
  - assert (2 ^ dg <= 2 ^ (d - 1)) by (apply Z.pow_le_mono_r; lia). lia.
  - assert (0 <= d).
    { destruct (Z.le_gt_cases 0 d); trivial.
      rewrite (Z.pow_neg_r 2 d) in Hhi by lia. lia. }
    assert (2 ^ d <= 2 ^ (dg - 1)) by (apply Z.pow_le_mono_r; lia). lia.
Qed.

Lemma digits2_pos_scaled (D c : positive) (t : Z) :
  Z.pos D = Z.pos c * 2 ^ t -> 0 <= t ->
  Z.pos (digits2_pos D) = Z.pos (digits2_pos c) + t.
Proof.
  intros HD Ht.
  pose proof (Float32Facts.digits2_pos_bounds c) as [Blo Bhi].
  apply digits2_pos_unique. rewrite HD.
  replace (Z.pos (digits2_pos c) + t - 1)
    with (Z.pos (digits2_pos c) - 1 + t) by lia.
  rewrite !Z.pow_add_r by lia.
  assert (0 < 2 ^ t) by (apply Z.pow_pos_nonneg; lia).
  split; nia.
Qed.

(** Rounding an integer whose significant bits fit 24 digits is exact: the
    result is a normal number of the same value. *)
Lemma binary_round_exact (s : bool) (D c : positive) (t e0 : Z) :
  Z.pos D = Z.pos c * 2 ^ t -> 0 <= t -> Z.pos c < 2 ^ 24 ->
  -149 <= e0 ->
  -149 <= Z.pos (digits2_pos c) + t + e0 - 24 <= 104 ->
  exists M E,
    binary_round prec emax s D e0 = S754_finite s M E /\
    Z.pos (digits2_pos M) = 24 /\
    -149 <= E <= 104 /\
    Z.pos M * 2 ^ (E + 149) = Z.pos D * 2 ^ (e0 + 149).
Proof.
  intros HD Ht Hc He0 Hrange.
  pose proof (digits2_pos_scaled D c t HD Ht) as HdD.
  pose proof (Float32Facts.digits2_pos_bounds c) as [Blo Bhi].
  set (dgc := Z.pos (digits2_pos c)) in *.
  set (dgD := Z.pos (digits2_pos D)) in *.
  unfold binary_round, fexp, emin. fold dgD.
  replace (Z.max (dgD + e0 - prec) (3 - emax - prec))
    with (dgD + e0 - 24) by (unfold prec, emax; lia).
  unfold shl_align.
  destruct (dgD + e0 - 24 - e0) as [ | k | k] eqn:Hk.
  - exists D, e0. split; [ | split; [ | split]]; try lia.
    apply binary_round_aux_normal; [fold dgD; lia | lia].
  - (* more than 24 digits: the low bits are zero *)
    assert (Hkt : Z.pos k <= t).
    { assert (dgc <= 24); [ | lia].
      destruct (Z.le_gt_cases dgc 24) as [H | H]; trivial.
      assert (2 ^ 24 <= 2 ^ (dgc - 1)) by (apply Z.pow_le_mono_r; lia).
      lia. }
    assert (Hsplit : 2 ^ t = 2 ^ (t - Z.pos k) * 2 ^ Z.pos k).
    { rewrite <- Z.pow_add_r by lia. f_equal. lia. }
    assert (Hpos : 0 < 2 ^ (t - Z.pos k)) by (apply Z.pow_pos_nonneg; lia).
    set (Mz := Z.pos c * 2 ^ (t - Z.pos k)).
    assert (HMz : 0 < Mz) by (unfold Mz; nia).
    destruct Mz as [ | M | M] eqn:HM; try lia.
    assert (HDM : D = Pos.iter xO M k).
    { apply Pos2Z.inj. rewrite pos_iter_xO_value, HD, Hsplit.
      unfold Mz in HM. nia. }
    assert (HdM : Z.pos (digits2_pos M) = 24).
    { apply digits2_pos_unique. rewrite <- HM. unfold Mz.
      assert (H23 : 2 ^ (24 - 1) = 2 ^ (dgc - 1) * 2 ^ (t - Z.pos k)).
      { rewrite <- Z.pow_add_r by lia. f_equal. lia. }
      assert (H24 : 2 ^ 24 = 2 ^ dgc * 2 ^ (t - Z.pos k)).
      { rewrite <- Z.pow_add_r by lia. f_equal. lia. }
      rewrite H23, H24. split; nia. }
    exists M, (e0 + Z.pos k). split; [ | split; [ | split]]; try lia.
    + rewrite HDM. apply binary_round_aux_shifted; [exact HdM | lia].
    + rewrite HDM, pos_iter_xO_value.
      replace (e0 + Z.pos k + 149) with (Z.pos k + (e0 + 149)) by lia.
      rewrite (Z.pow_add_r 2 (Z.pos k) (e0 + 149)) by lia. ring.
  - (* fewer than 24 digits: shift left *)
    cbn [fst snd].
    exists (Pos.iter xO D k), (dgD + e0 - 24).
    assert (HdM : Z.pos (digits2_pos (Pos.iter xO D k)) = 24).
    { rewrite digits2_pos_shift, Pos2Z.inj_add. fold dgD. lia. }
    split; [ | split; [ | split]]; try lia.
    + apply binary_round_aux_normal; [exact HdM | lia].
    + rewrite pos_iter_xO_value.
      replace (e0 + 149) with (Z.pos k + (dgD + e0 - 24 + 149)) by lia.
      rewrite (Z.pow_add_r 2 (Z.pos k) (dgD + e0 - 24 + 149)) by lia. ring.
Qed.

Lemma normal_finite_inv (s : bool) (m : positive) (e : Z) :
  normal (S754_finite s m e) = true ->
  Z.pos (digits2_pos m) = 24 /\ -149 <= e <= 104 /\
  2 ^ 23 <= Z.pos m < 2 ^ 24.
Proof.
  cbn [normal]. intros H.
  apply Bool.andb_true_iff in H. destruct H as [H H3].
  apply Bool.andb_true_iff in H. destruct H as [H1 H2].
  apply Z.eqb_eq in H1. apply Z.leb_le in H2. apply Z.leb_le in H3.
  pose proof (Float32Facts.digits2_pos_bounds m) as HB.
  rewrite H1 in HB. change (24 - 1) with 23 in HB.
  repeat split; lia.
Qed.

Lemma normal_finite_intro (s : bool) (m : positive) (e : Z) :
  Z.pos (digits2_pos m) = 24 -> -149 <= e <= 104 ->
  normal (S754_finite s m e) = true.
Proof.
  intros Hd He. cbn [normal]. rewrite Hd.
  apply Bool.andb_true_iff. split; [apply Bool.andb_true_iff; split | ].
  - reflexivity.
  - apply Z.leb_le. lia.
  - apply Z.leb_le. lia.
Qed.

(** Rounding an integer multiple of a power of two with at most 24
    significant bits gives a normal number of exactly that value. *)
Lemma binary_normalize_exact (D c t e0 : Z) :
  D = c * 2 ^ t -> 0 <= t -> - 2 ^ 24 < c < 2 ^ 24 ->
  -149 <= e0 -> -126 <= t + e0 <= 104 ->
  normal (binary_normalize prec emax D e0 false) = true /\
  scaled (binary_normalize prec emax D e0 false) = D * 2 ^ (e0 + 149).
Proof.
  intros HD Ht Hc He0 Hte.
  assert (Hpow : 0 < 2 ^ t) by (apply Z.pow_pos_nonneg; lia).
  destruct D as [ | D | D]; cbn [binary_normalize].
  - split; reflexivity.
  - destruct c as [ | c | c]; try lia.
    pose proof (Float32Facts.digits2_pos_bounds c) as [Blo Bhi].
    assert (Hdg : 1 <= Z.pos (digits2_pos c) <= 24).
    { split; [lia | ].
      destruct (Z.le_gt_cases (Z.pos (digits2_pos c)) 24) as [H | H]; trivial.
      assert (2 ^ 24 <= 2 ^ (Z.pos (digits2_pos c) - 1))
        by (apply Z.pow_le_mono_r; lia).
      lia. }
    destruct (binary_round_exact false D c t e0 HD Ht ltac:(lia) He0
                ltac:(lia)) as (M & E & -> & HdM & HE & Hval).
    split; [apply normal_finite_intro; assumption | ].
    cbn [scaled cond_Zopp]. exact Hval.
  - destruct c as [ | c | c]; try lia.
    pose proof (Float32Facts.digits2_pos_bounds c) as [Blo Bhi].
    assert (Hdg : 1 <= Z.pos (digits2_pos c) <= 24).
    { split; [lia | ].
      destruct (Z.le_gt_cases (Z.pos (digits2_pos c)) 24) as [H | H]; trivial.
      assert (2 ^ 24 <= 2 ^ (Z.pos (digits2_pos c) - 1))
        by (apply Z.pow_le_mono_r; lia).
      lia. }
    assert (HD' : Z.pos D = Z.pos c * 2 ^ t) by lia.
    destruct (binary_round_exact true D c t e0 HD' Ht ltac:(lia) He0
                ltac:(lia)) as (M & E & -> & HdM & HE & Hval).
    split; [apply normal_finite_intro; assumption | ].
    cbn [scaled cond_Zopp]. lia.
Qed.

Lemma cond_Zopp_mul (s : bool) (a b : Z) :
  cond_Zopp s a * b = cond_Zopp s (a * b).
Proof. destruct s; cbn [cond_Zopp]; lia. Qed.

Lemma cond_Zopp_abs (s : bool) (m : positive) :
  Z.abs (cond_Zopp s (Z.pos m)) = Z.pos m.
Proof. destruct s; reflexivity. Qed.

(** A normal number of magnitude below 2^22 has an exponent below -1, and
    one of magnitude at least 1/2 an exponent of at least -24. *)
Lemma normal_exponent_bounds (s : bool) (m : positive) (e a : Z) :
  normal (S754_finite s m e) = true ->
  scaled (S754_finite s m e) = a * 2 ^ 148 ->
  - 2 ^ 23 < a < 2 ^ 23 ->
  -24 <= e <= -2.
Proof.
  intros Hn Hs Ha.
  apply normal_finite_inv in Hn. destruct Hn as (_ & He & Hm).
  cbn [scaled] in Hs.
  assert (Habs : Z.pos m * 2 ^ (e + 149) = Z.abs a * 2 ^ 148).
  { rewrite <- (cond_Zopp_abs s m), <- (Z.abs_eq (2 ^ (e + 149))),
      <- Z.abs_mul, Hs, Z.abs_mul by (apply Z.pow_nonneg; lia).
    rewrite (Z.abs_eq (2 ^ 148)) by (apply Z.pow_nonneg; lia). reflexivity. }
  assert (Hpos : 0 < 2 ^ (e + 149)) by (apply Z.pow_pos_nonneg; lia).
  assert (Ha1 : 1 <= Z.abs a).
  { destruct (Z.eq_dec a 0) as [-> | ]; [ | lia].
    change (Z.abs 0 * 2 ^ 148) with 0 in Habs.
    apply Z.mul_eq_0 in Habs. lia. }
  split.
  - destruct (Z.le_gt_cases (-24) e) as [H | H]; trivial. exfalso.
    assert (2 ^ (e + 149) <= 2 ^ 124) by (apply Z.pow_le_mono_r; lia).
    assert (Z.pos m * 2 ^ (e + 149) < 2 ^ 24 * 2 ^ 124) by nia.
    change (2 ^ 24 * 2 ^ 124) with (2 ^ 148) in *.
    assert (0 < 2 ^ 148) by (apply Z.pow_pos_nonneg; lia). nia.
  - destruct (Z.le_gt_cases e (-2)) as [H | H]; trivial. exfalso.
    assert (2 ^ 148 <= 2 ^ (e + 149)) by (apply Z.pow_le_mono_r; lia).
    assert (2 ^ 23 * 2 ^ 148 <= Z.pos m * 2 ^ (e + 149)) by nia.
    assert (0 < 2 ^ 148) by (apply Z.pow_pos_nonneg; lia). nia.
Qed.

(** The aligned mantissa carries the value of the number. *)
Lemma aligned_value (s : bool) (m : positive) (e ez : Z) :
  ez <= e -> -149 <= ez ->
  cond_Zopp s (Z.pos (fst (shl_align m e ez))) * 2 ^ (ez + 149)
  = scaled (S754_finite s m e).
Proof.
  intros Hle Hez. rewrite Float32Facts.shl_align_value by exact Hle.
  cbn [scaled]. rewrite !cond_Zopp_mul. f_equal.
  replace (e + 149) with ((e - ez) + (ez + 149)) by lia.
  rewrite (Z.pow_add_r 2 (e - ez) (ez + 149)) by lia. ring.
Qed.

(** The sum or difference of the aligned mantissas of two half-integers
    below 2^22 is a multiple of a power of two with few significant
    bits. *)
Lemma aligned_combination (D c ez : Z) :
  -24 <= ez <= -2 ->
  D * 2 ^ (ez + 149) = c * 2 ^ 148 ->
  D = c * 2 ^ (- 1 - ez).
Proof.
  intros Hez H.
  assert (Hsplit : 2 ^ 148 = 2 ^ (- 1 - ez) * 2 ^ (ez + 149)).
  { rewrite <- Z.pow_add_r by lia. f_equal. lia. }
  rewrite Hsplit in H.
  assert (Hpos : 0 < 2 ^ (ez + 149)) by (apply Z.pow_pos_nonneg; lia).
  apply (Z.mul_cancel_r _ _ (2 ^ (ez + 149))); [lia | ].
  rewrite H. ring.
Qed.

Lemma scaled_zero_value (s : bool) (a : Z) :
  scaled (S754_zero s) = a * 2 ^ 148 -> a = 0.
Proof.
  cbn [scaled]. intros H.
  assert (0 < 2 ^ 148) by (apply Z.pow_pos_nonneg; lia). nia.
Qed.

(** Subtraction of half-integers below 2^22 is exact. *)
Lemma sub_exact (fa fb : float) (a b : Z) :
  normal fa = true -> normal fb = true ->
  scaled fa = a * 2 ^ 148 -> scaled fb = b * 2 ^ 148 ->
  - 2 ^ 23 < a < 2 ^ 23 -> - 2 ^ 23 < b < 2 ^ 23 ->
  normal (sub fa fb) = true /\ scaled (sub fa fb) = (a - b) * 2 ^ 148.
Proof.
  intros Na Nb Sa Sb Ha Hb.
  destruct fa as [sa | sa | | sa ma ea]; try discriminate Na;
    destruct fb as [sb | sb | | sb mb eb]; try discriminate Nb.
  - apply scaled_zero_value in Sa. apply scaled_zero_value in Sb. subst.
    destruct sa, sb; split; reflexivity.
  - apply scaled_zero_value in Sa. subst a. cbn [sub SFsub].
    split; [exact Nb | ].
    cbn [scaled] in *. destruct sb; cbn [negb cond_Zopp] in *; lia.
  - apply scaled_zero_value in Sb. subst b. cbn [sub SFsub].
    split; [exact Na | ]. rewrite Sa. f_equal. lia.
  - pose proof (normal_exponent_bounds _ _ _ _ Na Sa Ha) as Hea.
    pose proof (normal_exponent_bounds _ _ _ _ Nb Sb Hb) as Heb.
    unfold sub, SFsub. cbv zeta.
    set (ez := Z.min ea eb).
    assert (Hez : -24 <= ez <= -2) by (unfold ez; lia).
    set (D := cond_Zopp sa (Z.pos (fst (shl_align ma ea ez)))
              - cond_Zopp sb (Z.pos (fst (shl_align mb eb ez)))).
    assert (HD : D * 2 ^ (ez + 149) = (a - b) * 2 ^ 148).
    { unfold D. rewrite Z.mul_sub_distr_r.
      rewrite !aligned_value by (unfold ez; lia). rewrite Sa, Sb. ring. }
    destruct (binary_normalize_exact D (a - b) (- 1 - ez) ez
                (aligned_combination D (a - b) ez Hez HD)
                ltac:(lia) ltac:(lia) ltac:(lia) ltac:(lia)) as [Hn Hs].
    split; [exact Hn | ]. rewrite Hs. exact HD.
Qed.

(** Addition of half-integers below 2^22 is exact. *)
Lemma add_exact (fa fb : float) (a b : Z) :
  normal fa = true -> normal fb = true ->
  scaled fa = a * 2 ^ 148 -> scaled fb = b * 2 ^ 148 ->
  - 2 ^ 23 < a < 2 ^ 23 -> - 2 ^ 23 < b < 2 ^ 23 ->
  normal (add fa fb) = true /\ scaled (add fa fb) = (a + b) * 2 ^ 148.
Proof.
  intros Na Nb Sa Sb Ha Hb.
  destruct fa as [sa | sa | | sa ma ea]; try discriminate Na;
    destruct fb as [sb | sb | | sb mb eb]; try discriminate Nb.
  - apply scaled_zero_value in Sa. apply scaled_zero_value in Sb. subst.
    destruct sa, sb; split; reflexivity.
  - apply scaled_zero_value in Sa. subst a. cbn [add SFadd].
    split; [exact Nb | ]. rewrite Sb. f_equal.
  - apply scaled_zero_value in Sb. subst b. cbn [add SFadd].
    split; [exact Na | ]. rewrite Sa. f_equal. lia.
  - pose proof (normal_exponent_bounds _ _ _ _ Na Sa Ha) as Hea.
    pose proof (normal_exponent_bounds _ _ _ _ Nb Sb Hb) as Heb.
    unfold add, SFadd. cbv zeta.
    set (ez := Z.min ea eb).
    assert (Hez : -24 <= ez <= -2) by (unfold ez; lia).
    set (D := cond_Zopp sa (Z.pos (fst (shl_align ma ea ez)))
              + cond_Zopp sb (Z.pos (fst (shl_align mb eb ez)))).
    assert (HD : D * 2 ^ (ez + 149) = (a + b) * 2 ^ 148).
    { unfold D. rewrite Z.mul_add_distr_r.
      rewrite !aligned_value by (unfold ez; lia). rewrite Sa, Sb. ring. }
    destruct (binary_normalize_exact D (a + b) (- 1 - ez) ez
                (aligned_combination D (a + b) ez Hez HD)
                ltac:(lia) ltac:(lia) ltac:(lia) ltac:(lia)) as [Hn Hs].
    split; [exact Hn | ]. rewrite Hs. exact HD.
Qed.

(** Dividing a normal value by 2.0 lowers the exponent by one. *)
Lemma div_two_normal (s : bool) (m : positive) (e : Z) :
  Z.pos (digits2_pos m) = 24 -> -147 <= e <= 104 ->
  div (S754_finite s m e) (of_Z 2) = S754_finite s m (e - 1).
Proof.
  intros Hd He.
  change (of_Z 2) with (S754_finite false 8388608 (-22)).
  unfold div, SFdiv, SFdiv_core_binary, fexp, emin.
  cbn [Zdigits2]. rewrite Hd.
  change (Z.pos (digits2_pos 8388608)) with 24.
  replace (Z.min (Z.max (24 + e - (24 + -22) - prec) (3 - emax - prec))
                 (e - -22)) with (e - 2) by (unfold prec, emax; lia).
  replace (e - -22 - (e - 2)) with 24 by lia.
  rewrite Z_div_eucl_eq.
  rewrite Z.shiftl_mul_pow2 by lia.
  replace (Z.pos m * 2 ^ 24) with (Z.pos m~0 * Z.pos 8388608) by lia.
  rewrite Z.div_mul by lia. rewrite Z.mod_mul by lia.
  change (new_location (Z.pos 8388608) 0) with loc_Exact.
  rewrite Bool.xorb_false_r.
  unfold binary_round_aux, shr_fexp, fexp, emin.
  cbn [Zdigits2 digits2_pos shr_record_of_loc]. rewrite Pos2Z.inj_succ, Hd.
  replace (Z.max (Z.succ 24 + (e - 2) - prec) (3 - emax - prec) - (e - 2))
    with 1 by (unfold prec, emax; lia).
  cbn [shr iter_pos shr_1 shr_m loc_of_shr_record round_nearest_even
       Zdigits2 shr_record_of_loc orb].
  rewrite Hd.
  replace (Z.max (24 + (e - 2 + 1) - prec) (3 - emax - prec) - (e - 2 + 1))
    with 0 by (unfold prec, emax; lia).
  cbn [shr shr_m].
  replace (e - 2 + 1) with (e - 1) by lia.
  destruct (Z.leb_spec (e - 1) (emax - prec)) as [_ | Hgt];
    [reflexivity | unfold prec, emax in Hgt; lia].
Qed.

(** Integers below 2^22 in magnitude convert to normal numbers of the same
    value. *)
Lemma of_Z_exact (n : Z) :
  - 2 ^ 22 < n < 2 ^ 22 ->
  normal (of_Z n) = true /\ scaled (of_Z n) = (2 * n) * 2 ^ 148.
Proof.
  intros Hn.
  destruct (binary_normalize_exact n n 0 0 ltac:(cbn; lia) ltac:(lia)
              ltac:(lia) ltac:(lia) ltac:(lia)) as [H1 H2].
  split; [exact H1 | ]. unfold of_Z. rewrite H2.
  change (2 ^ (0 + 149)) with (2 * 2 ^ 148). ring.
Qed.

Lemma div_one_exact (f : float) (a : Z) :
  normal f = true -> scaled f = a * 2 ^ 148 -> - 2 ^ 23 < a < 2 ^ 23 ->
  div f (of_Z 1) = f.
Proof.
  intros Hn Hs Ha.
  destruct f as [s | s | | s m e]; try discriminate Hn.
  - destruct s; reflexivity.
  - pose proof (normal_exponent_bounds _ _ _ _ Hn Hs Ha) as He.
    apply normal_finite_inv in Hn. destruct Hn as (Hd & _ & _).
    apply div_one_normal; [exact Hd | lia].
Qed.

Lemma div_two_exact (f : float) (a : Z) :
  normal f = true -> scaled f = (2 * a) * 2 ^ 148 ->
  - 2 ^ 22 < a < 2 ^ 22 ->
  normal (div f (of_Z 2)) = true /\ scaled (div f (of_Z 2)) = a * 2 ^ 148.
Proof.
  intros Hn Hs Ha.
  destruct f as [s | s | | s m e]; try discriminate Hn.
  - apply scaled_zero_value in Hs.
    assert (a = 0) by lia. subst a.
    destruct s; split; reflexivity.
  - pose proof (normal_exponent_bounds _ _ _ _ Hn Hs ltac:(lia)) as He.
    apply normal_finite_inv in Hn. destruct Hn as (Hd & _ & _).
    rewrite div_two_normal by (trivial; lia).
    split; [apply normal_finite_intro; [exact Hd | lia] | ].
    cbn [scaled] in *.
    replace (e + 149) with (1 + (e - 1 + 149)) in Hs by lia.
    rewrite (Z.pow_add_r 2 1 (e - 1 + 149)) in Hs by lia.
    change (2 ^ 1) with 2 in Hs. lia.
Qed.

Lemma denotes_half_intro (f : float) (q : Z) :
  normal f = true -> scaled f = q * 2 ^ 148 -> denotes_half f q = true.
Proof.
  intros Hn Hs. unfold denotes_half.
  assert (H148 : 0 < 2 ^ 148) by (apply Z.pow_pos_nonneg; lia).
  destruct f as [s | s | | s m e]; try discriminate Hn.
  - apply scaled_zero_value in Hs. subst q. reflexivity.
  - apply normal_finite_inv in Hn. destruct Hn as (_ & He & _).
    cbn [scaled] in Hs. cbn [to_fraction].
    change (if s then Z.neg m else Z.pos m) with (cond_Zopp s (Z.pos m)).
    set (n := cond_Zopp s (Z.pos m)) in *.
    destruct (Z.leb_spec 0 e) as [H0 | H0]; apply Z.eqb_eq.
    + replace (e + 149) with (e + (1 + 148)) in Hs by lia.
      rewrite (Z.pow_add_r 2 e (1 + 148)) in Hs by lia.
      rewrite (Z.pow_add_r 2 1 148) in Hs by lia.
      change (2 ^ 1) with 2 in Hs.
      apply (Z.mul_cancel_r _ _ (2 ^ 148)); [lia | ].
      transitivity (q * 2 ^ 148); [rewrite <- Hs; ring | ring].
    + assert (Hsplit : 2 ^ (- e) * 2 ^ (e + 149) = 2 * 2 ^ 148).
      { rewrite <- Z.pow_add_r by lia.
        replace (- e + (e + 149)) with (1 + 148) by lia.
        rewrite (Z.pow_add_r 2 1 148) by lia. reflexivity. }
      assert (Hpe : 0 < 2 ^ (e + 149)) by (apply Z.pow_pos_nonneg; lia).
      apply (Z.mul_cancel_r _ _ (2 ^ 148)); [lia | ].
      transitivity (n * (2 * 2 ^ 148)); [ring | ].
      rewrite <- Hsplit.
      transitivity (n * 2 ^ (e + 149) * 2 ^ (- e)); [ring | ].
      rewrite Hs. ring.
Qed.

(** One axis of a drag at scale 1.0, from anchor pixel [a] to pixel [p]. *)
Lemma drag_axis_exact (a p : Z) :
  - 2 ^ 21 < a < 2 ^ 21 -> - 2 ^ 21 < p < 2 ^ 21 ->
  let anchor := div (of_Z a) (of_Z 1) in
  let dips := div (of_Z p) (of_Z 1) in
  let half := div (sub dips anchor) (of_Z 2) in
  denotes_Z anchor a = true /\
  denotes_half half (p - a) = true /\
  denotes_half (add anchor half) (a + p) = true.
Proof.
  intros Ha Hp. cbv zeta.
  destruct (of_Z_exact a ltac:(lia)) as [Na Sa].
  destruct (of_Z_exact p ltac:(lia)) as [Np Sp].
  rewrite (div_one_exact (of_Z a) (2 * a) Na Sa ltac:(lia)).
  rewrite (div_one_exact (of_Z p) (2 * p) Np Sp ltac:(lia)).
  destruct (sub_exact (of_Z p) (of_Z a) (2 * p) (2 * a) Np Na Sp Sa
              ltac:(lia) ltac:(lia)) as [Nd Sd].
  replace (2 * p - 2 * a) with (2 * (p - a)) in Sd by lia.
  destruct (div_two_exact _ (p - a) Nd Sd ltac:(lia)) as [Nh Sh].
  destruct (add_exact _ _ (2 * a) (p - a) Na Nh Sa Sh
              ltac:(lia) ltac:(lia)) as [Nc Sc].
  replace (2 * a + (p - a)) with (a + p) in Sc by lia.
  split; [ | split].
  - pose proof (exact_at_unit_scale_small a ltac:(lia)) as H.
    unfold exact_at_unit_scale in H.
    rewrite (div_one_exact (of_Z a) (2 * a) Na Sa ltac:(lia)) in H. exact H.
  - apply denotes_half_intro; assumption.
  - apply denotes_half_intro; assumption.
Qed.

(** X19.  In a window whose scale was initialised from 96 DPI a drag is
    computed without any rounding: after a press at an anchor pixel and a
    move with the button held to another pixel, each radius is exactly
    half the signed distance from the anchor to the pointer on its axis,
    and the centre is exactly the midpoint of the two, for all coordinates
    below 2^21 in magnitude and so for every pair of press and move
    messages. *)
Theorem drag_at_96_dpi_is_exact :
  forall (p : Process)
         (anchorX anchorY pixelX pixelY pressFlags flags : Z)
         (wp1 lp1 wp2 lp2 : Z) (env1 env2 : Backend),
    dpi p = scale_of_dpi 96 ->
    - 2 ^ 21 < anchorX < 2 ^ 21 -> - 2 ^ 21 < anchorY < 2 ^ 21 ->
    - 2 ^ 21 < pixelX < 2 ^ 21 -> - 2 ^ 21 < pixelY < 2 ^ 21 ->
    Z.land flags MK_LBUTTON <> 0 ->
    button_held wp2 = true ->
    (exists p1 p2,
       OnLButtonDown anchorX anchorY pressFlags p = Some (tt, p1) /\
       OnMouseMove pixelX pixelY flags p1 = Some (tt, p2) /\
       denotes_half (radiusX (ellipse (win p2))) (pixelX - anchorX) = true /\
       denotes_half (radiusY (ellipse (win p2))) (pixelY - anchorY) = true /\
       denotes_half (x (point (ellipse (win p2)))) (anchorX + pixelX) = true /\
       denotes_half (y (point (ellipse (win p2)))) (anchorY + pixelY) = true) /\
    (exists p1 p2,
       HandleMessage WM_LBUTTONDOWN wp1 lp1 env1 p = Some (0, p1) /\
       HandleMessage WM_MOUSEMOVE wp2 lp2 env2 p1 = Some (0, p2) /\
       denotes_half (radiusX (ellipse (win p2)))
         (GET_X_LPARAM lp2 - GET_X_LPARAM lp1) = true /\
       denotes_half (radiusY (ellipse (win p2)))
         (GET_Y_LPARAM lp2 - GET_Y_LPARAM lp1) = true /\
       denotes_half (x (point (ellipse (win p2))))
         (GET_X_LPARAM lp1 + GET_X_LPARAM lp2) = true /\
       denotes_half (y (point (ellipse (win p2))))
         (GET_Y_LPARAM lp1 + GET_Y_LPARAM lp2) = true).
Proof.
  intros [w d c t] anchorX anchorY pixelX pixelY pressFlags flags
         wp1 lp1 wp2 lp2 env1 env2 Hd Hax Hay Hpx Hpy Hheld Hwp.
  cbn [dpi] in Hd. subst d.
  destruct (mouse_position_range lp1) as [H1x H1y].
  destruct (mouse_position_range lp2) as [H2x H2y].
  split.
  - destruct (drag_axis_exact anchorX pixelX Hax Hpx) as (_ & Hrx & Hcx).
    destruct (drag_axis_exact anchorY pixelY Hay Hpy) as (_ & Hry & Hcy).
    unfold OnLButtonDown, OnMouseMove, PixelsToDips.
    apply Z.eqb_neq in Hheld. rewrite Hheld.
    cbv beta iota delta [negb]. m_unfold.
    do 2 eexists. split; [reflexivity | ]. split; [reflexivity | ].
    cbn [win ellipse point radiusX radiusY D2D1.x D2D1.y].
    repeat split; assumption.
  - destruct (drag_axis_exact (GET_X_LPARAM lp1) (GET_X_LPARAM lp2)
                ltac:(lia) ltac:(lia)) as (_ & Hrx & Hcx).
    destruct (drag_axis_exact (GET_Y_LPARAM lp1) (GET_Y_LPARAM lp2)
                ltac:(lia) ltac:(lia)) as (_ & Hry & Hcy).
    unfold button_held in Hwp.
    unfold HandleMessage, OnLButtonDown, OnMouseMove, PixelsToDips.
    m_unfold. rewrite Hwp. m_unfold.
    do 2 eexists. split; [reflexivity | ]. split; [reflexivity | ].
    cbn [win ellipse point radiusX radiusY D2D1.x D2D1.y].
    repeat split; assumption.
Qed.

Lemma drag_at_96_dpi_is_exact_witness :
  dpi created = scale_of_dpi 96 /\
  - 2 ^ 21 < 300 < 2 ^ 21 /\ - 2 ^ 21 < 200 < 2 ^ 21 /\
  - 2 ^ 21 < 17 < 2 ^ 21 /\ - 2 ^ 21 < 1001 < 2 ^ 21 /\
  Z.land MK_LBUTTON MK_LBUTTON <> 0 /\
  button_held MK_LBUTTON = true /\
  exists p1 p2,
    OnLButtonDown 300 200 MK_LBUTTON created = Some (tt, p1) /\
    OnMouseMove 17 1001 MK_LBUTTON p1 = Some (tt, p2) /\
    denotes_half (radiusX (ellipse (win p2))) (-283) = true /\
    denotes_half (radiusY (ellipse (win p2))) 801 = true /\
    denotes_half (x (point (ellipse (win p2)))) 317 = true /\
    denotes_half (y (point (ellipse (win p2)))) 1201 = true.
Proof.
  split; [reflexivity | ].
  split; [lia | ]. split; [lia | ]. split; [lia | ]. split; [lia | ].
  split; [discriminate | ]. split; [reflexivity | ].
  destruct (drag_at_96_dpi_is_exact created 300 200 17 1001
              MK_LBUTTON MK_LBUTTON 0 0 MK_LBUTTON 0 backend_ok backend_ok
              eq_refl ltac:(lia) ltac:(lia) ltac:(lia) ltac:(lia)
              ltac:(discriminate) eq_refl)
    as ((p1 & p2 & H1 & H2 & Hrx & Hry & Hcx & Hcy) & _).
  exists p1, p2. repeat split; assumption.
Defined.
